(** * Confluence tool handlers of mcp-atlassian: a shallow embedding

    Source: [src/mcp_atlassian/servers/confluence.py].

    Every tool is an [async def] that obtains a fetcher through
    [get_confluence_fetcher(ctx)], performs a little branching on its
    arguments, calls the fetcher, and returns a JSON string.  The handlers
    are embedded as computations in a small monad that threads the state of
    the outside world, records what the handler did (fetcher calls, log
    records) and carries Python exceptions as an explicit outcome.

    Conventions.
    - A Python [str] is a [string] (its UTF-8 bytes); an [int] is a [Z].
    - [exc] stands for an instance of Python's [Exception] class, the ones
      an [except Exception] clause intercepts.
    - The decorators ([confluence_mcp.tool], [check_write_access]) wrap the
      functions from outside; the definitions below are the function bodies. *)

From Stdlib Require Import String Ascii List ZArith Bool Lia DecimalString.
Import ListNotations.
Local Open Scope list_scope.
Local Open Scope string_scope.

(** ** Python strings *)

(** The double-quote character, and a few others used by [json.dumps]. *)
Definition dq : string := String (ascii_of_nat 34) EmptyString.
Definition backslash : string := String (ascii_of_nat 92) EmptyString.
Definition newline : string := String (ascii_of_nat 10) EmptyString.

(** [bool(s)] for a string: non-empty. *)
Definition truthy_str (s : string) : bool :=
  match s with
  | EmptyString => false
  | String _ _ => true
  end.

(** [bool(x)] for a [str | None] argument. *)
Definition truthy_opt (o : option string) : bool :=
  match o with
  | None => false
  | Some s => truthy_str s
  end.

(** [needle in hay]. *)
Fixpoint str_contains (needle hay : string) : bool :=
  if String.prefix needle hay then true
  else match hay with
       | EmptyString => false
       | String _ rest => str_contains needle rest
       end.

(** [str(n)] for an [int]. *)
Definition str_int (z : Z) : string := NilZero.string_of_int (Z.to_int z).

(** ** JSON values and [json.dumps(value, indent=2, ensure_ascii=False)] *)

#[local] Set Warnings "-register-all".

Inductive json : Type :=
| JNull
| JBool (b : bool)
| JInt (z : Z)
| JStr (s : string)
| JList (items : list json)
| JDict (items : list (string * json)).

Definition hex_digit (n : nat) : string :=
  String (ascii_of_nat (if Nat.ltb n 10 then 48 + n else 87 + n)) EmptyString.

(** [ESCAPE_DCT] of [json.encoder]: with [ensure_ascii=False] only the
    quote, the backslash and the control characters below 0x20 are escaped. *)
Definition escape_char (c : ascii) : string :=
  let n := nat_of_ascii c in
  if Nat.eqb n 34 then backslash ++ dq
  else if Nat.eqb n 92 then backslash ++ backslash
  else if Nat.eqb n 8 then backslash ++ "b"
  else if Nat.eqb n 9 then backslash ++ "t"
  else if Nat.eqb n 10 then backslash ++ "n"
  else if Nat.eqb n 12 then backslash ++ "f"
  else if Nat.eqb n 13 then backslash ++ "r"
  else if Nat.ltb n 32
       then backslash ++ "u00" ++ hex_digit (Nat.div n 16) ++ hex_digit (Nat.modulo n 16)
       else String c EmptyString.

Fixpoint escape_string (s : string) : string :=
  match s with
  | EmptyString => EmptyString
  | String c rest => escape_char c ++ escape_string rest
  end.

Definition encode_basestring (s : string) : string :=
  dq ++ escape_string s ++ dq.

Fixpoint spaces (n : nat) : string :=
  match n with
  | O => EmptyString
  | S k => String (ascii_of_nat 32) (spaces k)
  end.

(** A line break followed by the indentation of nesting depth [lvl]. *)
Definition newline_indent (lvl : nat) : string := newline ++ spaces (2 * lvl).

Fixpoint dumps_at (lvl : nat) (j : json) : string :=
  match j with
  | JNull => "null"
  | JBool true => "true"
  | JBool false => "false"
  | JInt z => str_int z
  | JStr s => encode_basestring s
  | JList [] => "[]"
  | JList (x :: xs) =>
      "[" ++ newline_indent (S lvl) ++ dumps_at (S lvl) x
      ++ (fix more (l : list json) : string :=
            match l with
            | [] => EmptyString
            | y :: ys => "," ++ newline_indent (S lvl) ++ dumps_at (S lvl) y ++ more ys
            end) xs
      ++ newline_indent lvl ++ "]"
  | JDict [] => "{}"
  | JDict ((k, v) :: kvs) =>
      "{" ++ newline_indent (S lvl) ++ encode_basestring k ++ ": " ++ dumps_at (S lvl) v
      ++ (fix more (l : list (string * json)) : string :=
            match l with
            | [] => EmptyString
            | (k', v') :: rest =>
                "," ++ newline_indent (S lvl) ++ encode_basestring k' ++ ": "
                ++ dumps_at (S lvl) v' ++ more rest
            end) kvs
      ++ newline_indent lvl ++ "}"
  end.

Definition json_dumps (j : json) : string := dumps_at 0 j.

(** ** Exceptions, domain objects and the fetcher collaborator *)

(** An exception instance: its class and [str(e)]. *)
Record exc : Type := { exc_class : string; exc_str : string }.

Definition ValueError (msg : string) : exc :=
  {| exc_class := "ValueError"; exc_str := msg |}.

(** The outcome of a call: it returns a value or raises. *)
Inductive result (A : Type) : Type :=
| Return (a : A)
| Raise (e : exc).
Arguments Return {A} a.
Arguments Raise {A} e.

(** A page object of the fetcher's model layer, as far as the handlers look
    at it: [page.to_simplified_dict()] and [page.content]. *)
Record Page : Type := { to_simplified_dict : json; content : string }.

(** Keyword arguments of [confluence_fetcher.create_page(...)]. *)
Record create_page_kwargs : Type := {
  cp_space_key : string;
  cp_title : string;
  cp_body : string;
  cp_parent_id : option string;
  cp_is_markdown : bool;
  cp_enable_heading_anchors : bool;
  cp_content_representation : option string;
  cp_emoji : option string;
  cp_page_width : option string
}.

(** Keyword arguments of [confluence_fetcher.update_page(...)]. *)
Record update_page_kwargs : Type := {
  up_page_id : string;
  up_title : string;
  up_body : string;
  up_is_minor_edit : bool;
  up_version_comment : option string;
  up_is_markdown : bool;
  up_parent_id : option string;
  up_enable_heading_anchors : bool;
  up_content_representation : option string;
  up_emoji : option string;
  up_page_width : option string
}.

(** The fetcher operations the handlers below invoke, with their arguments. *)
Inductive fetcher_call : Type :=
| CallSearch (query : string) (limit : Z) (spaces_filter : option string)
| CallGetPageContent (page_id : string) (convert_to_markdown : bool)
| CallGetPageByTitle (space_key title : string) (convert_to_markdown : bool)
| CallGetPageChildren (page_id : string) (start limit : Z) (expand : string)
    (convert_to_markdown include_folders : bool)
| CallCreatePage (kw : create_page_kwargs)
| CallUpdatePage (kw : update_page_kwargs)
| CallDeletePage (page_id : string).

Inductive log_level : Type := INFO | WARNING | ERROR.

(** What a handler does that is visible from outside, in order. *)
Inductive event : Type :=
| Log (lvl : log_level) (msg : string)
| Call (c : fetcher_call).

Definition is_call (e : event) : bool :=
  match e with
  | Call _ => true
  | Log _ _ => false
  end.

(** The fetcher operations among the events of a run. *)
Definition fetcher_calls (t : list event) : list event := filter is_call t.

(** The log records of a given level among the events of a run. *)
Definition logged (lvl : log_level) (t : list event) : list string :=
  flat_map (fun e => match e, lvl with
                     | Log INFO m, INFO | Log WARNING m, WARNING | Log ERROR m, ERROR => [m]
                     | _, _ => []
                     end) t.

(** The fetcher is an opaque collaborator: each operation reads and changes
    the outside world [S] (the Confluence site, the network) and returns or
    raises. *)
Record ConfluenceFetcher (S : Type) : Type := {
  fetcher_search : string -> Z -> option string -> S -> result (list Page) * S;
  fetcher_get_page_content : string -> bool -> S -> result Page * S;
  fetcher_get_page_by_title : string -> string -> bool -> S -> result (option Page) * S;
  fetcher_get_page_children :
    string -> Z -> Z -> string -> bool -> bool -> S -> result (list Page) * S;
  fetcher_create_page : create_page_kwargs -> S -> result Page * S;
  fetcher_update_page : update_page_kwargs -> S -> result Page * S;
  fetcher_delete_page : string -> S -> result bool * S
}.
Arguments fetcher_search {S}.
Arguments fetcher_get_page_content {S}.
Arguments fetcher_get_page_by_title {S}.
Arguments fetcher_get_page_children {S}.
Arguments fetcher_create_page {S}.
Arguments fetcher_update_page {S}.
Arguments fetcher_delete_page {S}.

(** A [page_id] argument of type [str | int | None]. *)
Inductive page_id_arg : Type :=
| PidNone
| PidStr (s : string)
| PidInt (z : Z).

(** [bool(page_id)]. *)
Definition truthy_pid (p : page_id_arg) : bool :=
  match p with
  | PidNone => false
  | PidStr s => truthy_str s
  | PidInt z => negb (Z.eqb z 0)
  end.

(** [str(page_id)], also what an f-string prints for it. *)
Definition str_pid (p : page_id_arg) : string :=
  match p with
  | PidNone => "None"
  | PidStr s => s
  | PidInt z => str_int z
  end.

(** [str(x)] for a [str | None] argument (the string itself when there is one). *)
Definition str_opt (o : option string) : string :=
  match o with
  | None => "None"
  | Some s => s
  end.

(** The operator tokens whose presence marks a query as CQL. *)
Definition operator_tokens : list string :=
  ["="; "~"; ">"; "<"; " AND "; " OR "; "currentUser()"].

(** [any(x in query for x in [...])]. *)
Definition has_operator (query : string) : bool :=
  existsb (fun x => str_contains x query) operator_tokens.

Definition content_formats : list string := ["markdown"; "wiki"; "storage"].

(** [x in xs] for a list of strings. *)
Definition str_in_list (x : string) (xs : list string) : bool :=
  existsb (String.eqb x) xs.

(** How a block of statements ends: it falls through with a value, or it has
    executed a [return]. *)
Inductive flow (A : Type) : Type :=
| Next (a : A)
| Done (s : string).
Arguments Next {A} a.
Arguments Done {A} s.

(** ** Recognising page URLs

    String helpers of the URL-to-identifier helper [parse_page_id_from_url],
    which the unit tests import from this module. *)

(** [c.isdigit()] for an ASCII character. *)
Definition is_digit (c : ascii) : bool :=
  let n := nat_of_ascii c in Nat.leb 48 n && Nat.leb n 57.

Fixpoint all_digits (s : string) : bool :=
  match s with
  | EmptyString => true
  | String c rest => is_digit c && all_digits rest
  end.

(** A non-empty run of digits. *)
Definition is_number (s : string) : bool := truthy_str s && all_digits s.

(** [s.split(sep)] for a one-character separator. *)
Fixpoint split_on (sep : ascii) (s : string) : list string :=
  match s with
  | EmptyString => [EmptyString]
  | String c rest =>
      if Ascii.eqb c sep then EmptyString :: split_on sep rest
      else match split_on sep rest with
           | [] => [String c EmptyString]
           | seg :: segs => String c seg :: segs
           end
  end.

Definition slash : ascii := ascii_of_nat 47.
Definition question_mark : ascii := ascii_of_nat 63.

(** The character [c] does not occur in [s]. *)
Fixpoint no_char (c : ascii) (s : string) : bool :=
  match s with
  | EmptyString => true
  | String d rest => negb (Ascii.eqb d c) && no_char c rest
  end.

(** The first place where the path segments read [spaces], a key, [pages],
    a number: the number. *)
Fixpoint find_modern (segs : list string) : option string :=
  match segs with
  | [] => None
  | seg :: rest =>
      match rest with
      | _ :: p :: d :: _ =>
          if String.eqb seg "spaces" && String.eqb p "pages" && is_number d
          then Some d
          else find_modern rest
      | _ => None
      end
  end.

Definition modern_page_id (url : string) : option string :=
  find_modern (split_on slash url).

(** [s[n:]]. *)
Fixpoint skip (n : nat) (s : string) : string :=
  match n, s with
  | O, _ => s
  | S k, String _ rest => skip k rest
  | S _, EmptyString => EmptyString
  end.

(** What follows the first occurrence of [pat] in [s]. *)
Fixpoint find_after (pat s : string) : option string :=
  if String.prefix pat s then Some (skip (String.length pat) s)
  else match s with
       | EmptyString => None
       | String _ rest => find_after pat rest
       end.

(** The longest run of digits [s] starts with. *)
Fixpoint take_digits (s : string) : string :=
  match s with
  | EmptyString => EmptyString
  | String c rest => if is_digit c then String c (take_digits rest) else EmptyString
  end.

Definition legacy_page_id (url : string) : option string :=
  match find_after "?pageId=" url with
  | None => None
  | Some rest =>
      let digits := take_digits rest in
      if truthy_str digits then Some digits else None
  end.

Definition is_url (s : string) : bool :=
  String.prefix "http://" s || String.prefix "https://" s.

(** ** The handler monad and the tools *)

Section Handlers.

(** The outside world, the request context, and the context-scoped fetcher
    lookup [get_confluence_fetcher(ctx)] of [servers/dependencies.py], which
    returns the fetcher or raises (the tools document a [ValueError] when the
    Confluence client is not configured or available). *)
Variable S : Type.
Variable Ctx : Type.
Variable get_confluence_fetcher : Ctx -> S -> result (ConfluenceFetcher S) * S.

(** The state a handler runs in: the outside world and what the handler has
    done so far. *)
Record world : Type := { ext : S; trace : list event }.

Definition M (A : Type) : Type := world -> result A * world.

Definition ret {A : Type} (a : A) : M A := fun w => (Return a, w).

Definition bind {A B : Type} (m : M A) (k : A -> M B) : M B :=
  fun w =>
    match m w with
    | (Return a, w') => k a w'
    | (Raise e, w') => (Raise e, w')
    end.

Definition raise {A : Type} (e : exc) : M A := fun w => (Raise e, w).

(** [try: body / except Exception as e: handler]. *)
Definition try_except {A : Type} (body : M A) (handler : exc -> M A) : M A :=
  fun w =>
    match body w with
    | (Return a, w') => (Return a, w')
    | (Raise e, w') => handler e w'
    end.

Definition emit (e : event) : M unit :=
  fun w => (Return tt, {| ext := ext w; trace := trace w ++ [e] |}).

(** An operation of the outside world, recorded as the event [e]. *)
Definition perform {A : Type} (e : event) (op : S -> result A * S) : M A :=
  fun w =>
    let (r, s') := op (ext w) in
    (r, {| ext := s'; trace := trace w ++ [e] |}).

Notation "x <- m ;; k" := (bind m (fun x => k))
  (at level 61, m at next level, right associativity).
Notation "m ;;; k" := (bind m (fun _ => k))
  (at level 61, right associativity).

Definition logger_info (msg : string) : M unit := emit (Log INFO msg).
Definition logger_warning (msg : string) : M unit := emit (Log WARNING msg).
Definition logger_error (msg : string) : M unit := emit (Log ERROR msg).

(** [await get_confluence_fetcher(ctx)]. *)
Definition await_fetcher (ctx : Ctx) : M (ConfluenceFetcher S) :=
  fun w =>
    let (r, s') := get_confluence_fetcher ctx (ext w) in
    (r, {| ext := s'; trace := trace w |}).

(** A handler invoked in the outside world [s]: its outcome, and the world
    it leaves. *)
Definition run {A : Type} (m : M A) (s : S) : result A * world :=
  m {| ext := s; trace := [] |}.

(** *** search *)

Definition search (ctx : Ctx) (query : string) (limit : Z)
    (spaces_filter : option string) : M string :=
  confluence_fetcher <- await_fetcher ctx ;;
  pages <-
    (if truthy_str query && negb (has_operator query)
     then
       let original_query := query in
       try_except
         (let query := "siteSearch ~ " ++ dq ++ original_query ++ dq in
          logger_info ("Converting simple search term to CQL using siteSearch: " ++ query) ;;;
          perform (Call (CallSearch query limit spaces_filter))
            (fetcher_search confluence_fetcher query limit spaces_filter))
         (fun e =>
            logger_warning
              ("siteSearch failed ('" ++ exc_str e ++ "'), falling back to text search.") ;;;
            let query := "text ~ " ++ dq ++ original_query ++ dq in
            logger_info ("Falling back to text search with CQL: " ++ query) ;;;
            perform (Call (CallSearch query limit spaces_filter))
              (fetcher_search confluence_fetcher query limit spaces_filter))
     else
       perform (Call (CallSearch query limit spaces_filter))
         (fetcher_search confluence_fetcher query limit spaces_filter)) ;;
  let search_results := map to_simplified_dict pages in
  ret (json_dumps (JList search_results)).

(** *** get_page *)

Definition get_page (ctx : Ctx) (page_id : page_id_arg) (title space_key : option string)
    (include_metadata convert_to_markdown : bool) : M string :=
  confluence_fetcher <- await_fetcher ctx ;;
  resolved <-
    (if truthy_pid page_id then
       (if truthy_opt title || truthy_opt space_key
        then logger_warning
               "page_id was provided; title and space_key parameters will be ignored."
        else ret tt) ;;;
       try_except
         (let page_id_str := str_pid page_id in
          page_object <-
            perform (Call (CallGetPageContent page_id_str convert_to_markdown))
              (fetcher_get_page_content confluence_fetcher page_id_str convert_to_markdown) ;;
          ret (Next (Some page_object)))
         (fun e =>
            logger_error
              ("Error fetching page by ID '" ++ str_pid page_id ++ "': " ++ exc_str e) ;;;
            ret (Done (json_dumps
                   (JDict [("error",
                            JStr ("Failed to retrieve page by ID '" ++ str_pid page_id
                                  ++ "': " ++ exc_str e))]))))
     else if truthy_opt title && truthy_opt space_key then
       page_object <-
         perform (Call (CallGetPageByTitle (str_opt space_key) (str_opt title)
                          convert_to_markdown))
           (fetcher_get_page_by_title confluence_fetcher (str_opt space_key) (str_opt title)
              convert_to_markdown) ;;
       match page_object with
       | None =>
           ret (Done (json_dumps
                  (JDict [("error",
                           JStr ("Page with title '" ++ str_opt title
                                 ++ "' not found in space '" ++ str_opt space_key ++ "'."))])))
       | Some _ => ret (Next page_object)
       end
     else
       raise (ValueError "Either 'page_id' OR both 'title' and 'space_key' must be provided.")) ;;
  match resolved with
  | Done s => ret s
  | Next None =>
      ret (json_dumps (JDict [("error", JStr "Page not found with the provided identifiers.")]))
  | Next (Some page_object) =>
      let result :=
        if include_metadata
        then JDict [("metadata", to_simplified_dict page_object)]
        else JDict [("content", JDict [("value", JStr (content page_object))])] in
      ret (json_dumps result)
  end.

(** *** get_page_children *)

Definition get_page_children (ctx : Ctx) (parent_id expand : string) (limit : Z)
    (include_content convert_to_markdown : bool) (start : Z) (include_folders : bool)
    : M string :=
  confluence_fetcher <- await_fetcher ctx ;;
  let expand :=
    if include_content && negb (str_contains "body" expand)
    then (if truthy_str expand then expand ++ ",body.storage" else "body.storage")
    else expand in
  result <-
    try_except
      (pages <-
         perform (Call (CallGetPageChildren parent_id start limit expand
                          convert_to_markdown include_folders))
           (fetcher_get_page_children confluence_fetcher parent_id start limit expand
              convert_to_markdown include_folders) ;;
       let child_pages := map to_simplified_dict pages in
       ret (JDict [("parent_id", JStr parent_id);
                   ("count", JInt (Z.of_nat (List.length child_pages)));
                   ("limit_requested", JInt limit);
                   ("start_requested", JInt start);
                   ("results", JList child_pages)]))
      (fun e =>
         logger_error
           ("Error getting/processing children for page ID " ++ parent_id ++ ": "
            ++ exc_str e) ;;;
         ret (JDict [("error", JStr ("Failed to get child pages: " ++ exc_str e))])) ;;
  ret (json_dumps result).

(** *** create_page *)

Definition create_page (ctx : Ctx) (space_key title content : string)
    (parent_id : option string) (content_format : string) (enable_heading_anchors : bool)
    (emoji page_width : option string) : M string :=
  confluence_fetcher <- await_fetcher ctx ;;
  (if negb (str_in_list content_format content_formats)
   then raise (ValueError ("Invalid content_format: " ++ content_format
                           ++ ". Must be 'markdown', 'wiki', or 'storage'"))
   else ret tt) ;;;
  let '(is_markdown, content_representation) :=
    if String.eqb content_format "markdown"
    then (true, None)
    else (false, Some content_format) in
  let kw :=
    {| cp_space_key := space_key;
       cp_title := title;
       cp_body := content;
       cp_parent_id := parent_id;
       cp_is_markdown := is_markdown;
       cp_enable_heading_anchors :=
         if String.eqb content_format "markdown" then enable_heading_anchors else false;
       cp_content_representation := content_representation;
       cp_emoji := emoji;
       cp_page_width := page_width |} in
  page <- perform (Call (CallCreatePage kw)) (fetcher_create_page confluence_fetcher kw) ;;
  let result := to_simplified_dict page in
  ret (json_dumps (JDict [("message", JStr "Page created successfully"); ("page", result)])).

(** *** update_page *)

Definition update_page (ctx : Ctx) (page_id title content : string) (is_minor_edit : bool)
    (version_comment parent_id : option string) (content_format : string)
    (enable_heading_anchors : bool) (emoji page_width : option string) : M string :=
  confluence_fetcher <- await_fetcher ctx ;;
  (if negb (str_in_list content_format content_formats)
   then raise (ValueError ("Invalid content_format: " ++ content_format
                           ++ ". Must be 'markdown', 'wiki', or 'storage'"))
   else ret tt) ;;;
  let '(is_markdown, content_representation) :=
    if String.eqb content_format "markdown"
    then (true, None)
    else (false, Some content_format) in
  let kw :=
    {| up_page_id := page_id;
       up_title := title;
       up_body := content;
       up_is_minor_edit := is_minor_edit;
       up_version_comment := version_comment;
       up_is_markdown := is_markdown;
       up_parent_id := parent_id;
       up_enable_heading_anchors :=
         if String.eqb content_format "markdown" then enable_heading_anchors else false;
       up_content_representation := content_representation;
       up_emoji := emoji;
       up_page_width := page_width |} in
  updated_page <-
    perform (Call (CallUpdatePage kw)) (fetcher_update_page confluence_fetcher kw) ;;
  let page_data := to_simplified_dict updated_page in
  ret (json_dumps (JDict [("message", JStr "Page updated successfully"); ("page", page_data)])).

(** *** delete_page *)

Definition delete_page (ctx : Ctx) (page_id : string) : M string :=
  confluence_fetcher <- await_fetcher ctx ;;
  response <-
    try_except
      (result <-
         perform (Call (CallDeletePage page_id))
           (fetcher_delete_page confluence_fetcher page_id) ;;
       if (result : bool)
       then ret (JDict [("success", JBool true);
                        ("message", JStr ("Page " ++ page_id ++ " deleted successfully"))])
       else ret (JDict [("success", JBool false);
                        ("message",
                         JStr ("Unable to delete page " ++ page_id
                               ++ ". API request completed but deletion unsuccessful."))]))
      (fun e =>
         logger_error ("Error deleting Confluence page " ++ page_id ++ ": " ++ exc_str e) ;;;
         ret (JDict [("success", JBool false);
                     ("message", JStr ("Error deleting page " ++ page_id));
                     ("error", JStr (exc_str e))])) ;;
  ret (json_dumps response).

(** *** parse_page_id_from_url *)

(** Modelled from the spec: [parse_page_id_from_url], which the unit tests
    import from [servers/confluence.py], is not defined in that file.  The
    spec (section 8) gives its behaviour: a modern URL
    [.../spaces/KEY/pages/<digits>/<slug>] yields the digits; a legacy URL
    with [?pageId=<digits>] yields those digits; a bare numeric string or an
    integer yields its string form unchanged; [None] yields [None]; a
    non-Confluence URL is returned unchanged with a warning logged.  A URL is
    a string that starts with [http://] or [https://] (the tests exercise
    both); any other string is returned as it is. *)
Definition parse_page_id_from_url (page_id_or_url : page_id_arg) : M (option string) :=
  match page_id_or_url with
  | PidNone => ret None
  | PidInt z => ret (Some (str_int z))
  | PidStr s =>
      if is_url s then
        match modern_page_id s with
        | Some digits => ret (Some digits)
        | None =>
            match legacy_page_id s with
            | Some digits => ret (Some digits)
            | None =>
                logger_warning ("Could not extract a page ID from URL: " ++ s) ;;;
                ret (Some s)
            end
        end
      else ret (Some s)
  end.

End Handlers.

Arguments ext {S} w.
Arguments trace {S} w.
Arguments run {S A} m s.
Arguments search {S Ctx} get_confluence_fetcher ctx query limit spaces_filter.
Arguments get_page {S Ctx} get_confluence_fetcher ctx page_id title space_key
  include_metadata convert_to_markdown.
Arguments get_page_children {S Ctx} get_confluence_fetcher ctx parent_id expand limit
  include_content convert_to_markdown start include_folders.
Arguments create_page {S Ctx} get_confluence_fetcher ctx space_key title content parent_id
  content_format enable_heading_anchors emoji page_width.
Arguments update_page {S Ctx} get_confluence_fetcher ctx page_id title content is_minor_edit
  version_comment parent_id content_format enable_heading_anchors emoji page_width.
Arguments delete_page {S Ctx} get_confluence_fetcher ctx page_id.
Arguments parse_page_id_from_url {S} page_id_or_url.

(** ** Sample deployments

    Small concrete sites on which the handlers can be run.  The outside world
    is the number of requests the site has served. *)

Definition sample_page : Page :=
  {| to_simplified_dict := JDict [("id", JStr "123456789"); ("title", JStr "Page Title")];
     content := "Hello" |}.

Definition served {A : Type} (a : A) (n : nat) : result A * nat := (Return a, S n).

Definition refused {A : Type} (msg : string) (n : nat) : result A * nat :=
  (Raise {| exc_class := "HTTPError"; exc_str := msg |}, S n).

(** A site that answers every request; it holds one page, [123456789],
    titled [Page Title]. *)
Definition healthy_fetcher : ConfluenceFetcher nat :=
  {| fetcher_search := fun _ _ _ => served [sample_page];
     fetcher_get_page_content := fun _ _ => served sample_page;
     fetcher_get_page_by_title := fun _ title _ =>
       served (if String.eqb title "Page Title" then Some sample_page else None);
     fetcher_get_page_children := fun _ _ _ _ _ _ => served [];
     fetcher_create_page := fun _ => served sample_page;
     fetcher_update_page := fun _ => served sample_page;
     fetcher_delete_page := fun page_id => served (String.eqb page_id "123456789") |}.

(** An older server: the [siteSearch] field is unknown to its CQL. *)
Definition legacy_fetcher : ConfluenceFetcher nat :=
  {| fetcher_search := fun query _ _ =>
       if String.prefix "siteSearch" query
       then refused "400 Bad Request"
       else served [sample_page];
     fetcher_get_page_content := fetcher_get_page_content healthy_fetcher;
     fetcher_get_page_by_title := fetcher_get_page_by_title healthy_fetcher;
     fetcher_get_page_children := fetcher_get_page_children healthy_fetcher;
     fetcher_create_page := fetcher_create_page healthy_fetcher;
     fetcher_update_page := fetcher_update_page healthy_fetcher;
     fetcher_delete_page := fetcher_delete_page healthy_fetcher |}.

(** A site that is down: every request fails. *)
Definition offline_fetcher : ConfluenceFetcher nat :=
  {| fetcher_search := fun _ _ _ => refused "503 Service Unavailable";
     fetcher_get_page_content := fun _ _ => refused "503 Service Unavailable";
     fetcher_get_page_by_title := fun _ _ _ => refused "503 Service Unavailable";
     fetcher_get_page_children := fun _ _ _ _ _ _ => refused "503 Service Unavailable";
     fetcher_create_page := fun _ => refused "503 Service Unavailable";
     fetcher_update_page := fun _ => refused "503 Service Unavailable";
     fetcher_delete_page := fun _ => refused "503 Service Unavailable" |}.

(** The lookup of a server whose Confluence client is configured with [f]. *)
Definition configured (f : ConfluenceFetcher nat) (_ : unit) (n : nat)
    : result (ConfluenceFetcher nat) * nat :=
  (Return f, n).

(** The lookup of a server that has no Confluence client. *)
Definition unconfigured (_ : unit) (n : nat) : result (ConfluenceFetcher nat) * nat :=
  (Raise (ValueError "Confluence client is not configured or available."), n).

(** [needle] occurs somewhere in [hay]. *)
Definition occurs_in (needle hay : string) : Prop :=
  exists before after, hay = before ++ needle ++ after.

(** * The remaining tools

    The tools of [servers/confluence.py] that the sections above leave out:
    the listing tools, [move_page_position], [add_label], [add_comment],
    [search_user] and [confluence_get_page_views].  They use further
    operations of the fetcher, and [except] clauses that select an exception
    by its class. *)

(** ** [json.dumps(value, indent=2)]: [ensure_ascii] left at its default

    With [ensure_ascii=True] every character outside the printable ASCII
    range is written as an escape, by code point. *)

Definition cont_bits (c : ascii) : N := N.land (N_of_ascii c) 63.

(** The code points of a string, from its UTF-8 bytes.  A byte that starts
    no well-formed sequence (there is none in the encoding of a Python
    [str]) counts as the code point of its own value. *)
Fixpoint code_points (s : string) : list N :=
  match s with
  | EmptyString => []
  | String c0 rest =>
      let b := N_of_ascii c0 in
      if N.ltb b 192 then b :: code_points rest
      else if N.ltb b 224 then
        match rest with
        | String c1 r => (N.land b 31 * 64 + cont_bits c1)%N :: code_points r
        | EmptyString => [b]
        end
      else if N.ltb b 240 then
        match rest with
        | String c1 (String c2 r) =>
            (N.land b 15 * 4096 + cont_bits c1 * 64 + cont_bits c2)%N :: code_points r
        | _ => b :: code_points rest
        end
      else
        match rest with
        | String c1 (String c2 (String c3 r)) =>
            (N.land b 7 * 262144 + cont_bits c1 * 4096 + cont_bits c2 * 64 + cont_bits c3)%N
            :: code_points r
        | _ => b :: code_points rest
        end
  end.

(** ['{0:04x}'.format(n)] for [n] below 0x10000. *)
Definition hex4 (n : N) : string :=
  let k := N.to_nat n in
  hex_digit (Nat.modulo (Nat.div k 4096) 16) ++ hex_digit (Nat.modulo (Nat.div k 256) 16)
  ++ hex_digit (Nat.modulo (Nat.div k 16) 16) ++ hex_digit (Nat.modulo k 16).

(** The replacement [py_encode_basestring_ascii] makes for one character. *)
Definition escape_code_point (n : N) : string :=
  if N.eqb n 34 then backslash ++ dq
  else if N.eqb n 92 then backslash ++ backslash
  else if N.eqb n 8 then backslash ++ "b"
  else if N.eqb n 9 then backslash ++ "t"
  else if N.eqb n 10 then backslash ++ "n"
  else if N.eqb n 12 then backslash ++ "f"
  else if N.eqb n 13 then backslash ++ "r"
  else if N.leb 32 n && N.leb n 126 then String (ascii_of_N n) EmptyString
  else if N.ltb n 65536 then backslash ++ "u" ++ hex4 n
  else
    let v := (n - 65536)%N in
    backslash ++ "u" ++ hex4 (N.lor 55296 (N.land (N.shiftr v 10) 1023))
    ++ backslash ++ "u" ++ hex4 (N.lor 56320 (N.land v 1023)).

Definition encode_basestring_ascii (s : string) : string :=
  dq ++ String.concat EmptyString (map escape_code_point (code_points s)) ++ dq.

Fixpoint dumps_ascii_at (lvl : nat) (j : json) : string :=
  match j with
  | JNull => "null"
  | JBool true => "true"
  | JBool false => "false"
  | JInt z => str_int z
  | JStr s => encode_basestring_ascii s
  | JList [] => "[]"
  | JList (x :: xs) =>
      "[" ++ newline_indent (S lvl) ++ dumps_ascii_at (S lvl) x
      ++ (fix more (l : list json) : string :=
            match l with
            | [] => EmptyString
            | y :: ys => "," ++ newline_indent (S lvl) ++ dumps_ascii_at (S lvl) y ++ more ys
            end) xs
      ++ newline_indent lvl ++ "]"
  | JDict [] => "{}"
  | JDict ((k, v) :: kvs) =>
      "{" ++ newline_indent (S lvl) ++ encode_basestring_ascii k ++ ": "
      ++ dumps_ascii_at (S lvl) v
      ++ (fix more (l : list (string * json)) : string :=
            match l with
            | [] => EmptyString
            | (k', v') :: rest =>
                "," ++ newline_indent (S lvl) ++ encode_basestring_ascii k' ++ ": "
                ++ dumps_ascii_at (S lvl) v' ++ more rest
            end) kvs
      ++ newline_indent lvl ++ "}"
  end.

Definition json_dumps_ascii (j : json) : string := dumps_ascii_at 0 j.

(** A printable ASCII character or a line break. *)
Definition is_plain (c : ascii) : bool :=
  let n := nat_of_ascii c in (Nat.leb 32 n && Nat.leb n 126) || Nat.eqb n 10.

Fixpoint all_plain (s : string) : bool :=
  match s with
  | EmptyString => true
  | String c rest => is_plain c && all_plain rest
  end.

(** ** Further operations of the fetcher *)

(** A comment, label, user search result or view statistics object of the
    fetcher's model layer: the handlers only call its
    [to_simplified_dict()]. *)
Record ApiModel : Type := { simplified_dict : json }.

Inductive fetcher_op : Type :=
| OpGetPageAncestors (page_id : string)
| OpGetSpacePageTree (space_key : string) (limit : Z)
| OpGetSpaces (start limit : Z)
| OpMovePagePosition (page_id position target_id : string)
| OpGetPageComments (page_id : string)
| OpGetPageLabels (page_id : string)
| OpAddPageLabel (page_id name : string)
| OpAddComment (page_id content : string)
| OpSearchUser (query : string) (limit : Z)
| OpGetPageViews (page_id : string) (include_title : bool).

(** The operations that change the site. *)
Definition is_write_op (op : fetcher_op) : bool :=
  match op with
  | OpMovePagePosition _ _ _ | OpAddPageLabel _ _ | OpAddComment _ _ => true
  | _ => false
  end.

Inductive step : Type :=
| Logged (lvl : log_level) (msg : string)
| Invoked (op : fetcher_op).

(** The fetcher operations among the steps of a run. *)
Definition invoked (t : list step) : list fetcher_op :=
  flat_map (fun st => match st with
                      | Invoked op => [op]
                      | Logged _ _ => []
                      end) t.

(** The log records among the steps of a run. *)
Definition log_records (t : list step) : list (log_level * string) :=
  flat_map (fun st => match st with
                      | Logged lvl msg => [(lvl, msg)]
                      | Invoked _ => []
                      end) t.

Record FetcherOps (S : Type) : Type := {
  fetcher_get_page_ancestors : string -> S -> result (list Page) * S;
  fetcher_get_space_page_tree : string -> Z -> S -> result json * S;
  fetcher_get_spaces : Z -> Z -> S -> result json * S;
  fetcher_move_page_position : string -> string -> string -> S -> result bool * S;
  fetcher_get_page_comments : string -> S -> result (list ApiModel) * S;
  fetcher_get_page_labels : string -> S -> result (list ApiModel) * S;
  fetcher_add_page_label : string -> string -> S -> result (list ApiModel) * S;
  fetcher_add_comment : string -> string -> S -> result (option ApiModel) * S;
  fetcher_search_user : string -> Z -> S -> result (list ApiModel) * S;
  fetcher_get_page_views : string -> bool -> S -> result ApiModel * S
}.
Arguments fetcher_get_page_ancestors {S}.
Arguments fetcher_get_space_page_tree {S}.
Arguments fetcher_get_spaces {S}.
Arguments fetcher_move_page_position {S}.
Arguments fetcher_get_page_comments {S}.
Arguments fetcher_get_page_labels {S}.
Arguments fetcher_add_page_label {S}.
Arguments fetcher_add_comment {S}.
Arguments fetcher_search_user {S}.
Arguments fetcher_get_page_views {S}.

(** The tokens whose presence marks a user query as CQL. *)
Definition user_query_tokens : list string :=
  ["="; "~"; ">"; "<"; " AND "; " OR "; "user."].

Section RemainingTools.

(** The outside world, the request context, the fetcher lookup, and the
    class hierarchy of the exceptions: [issubclass c d] for class names. *)
Variable S : Type.
Variable Ctx : Type.
Variable get_confluence_fetcher : Ctx -> S -> result (FetcherOps S) * S.
Variable issubclass : string -> string -> bool.

Record session : Type := { site : S; steps : list step }.

Definition Tool (A : Type) : Type := session -> result A * session.

Definition done {A : Type} (a : A) : Tool A := fun w => (Return a, w).

Definition and_then {A B : Type} (m : Tool A) (k : A -> Tool B) : Tool B :=
  fun w =>
    match m w with
    | (Return a, w') => k a w'
    | (Raise e, w') => (Raise e, w')
    end.

(** [isinstance(e, cls)]. *)
Definition isinstance (e : exc) (cls : string) : bool := issubclass (exc_class e) cls.

(** [try: body / except C1 as e: h1 / except C2 as e: h2 / ... /
    except Exception as e: otherwise]: the first clause whose class the
    exception is an instance of handles it. *)
Fixpoint select {A : Type} (clauses : list (string * (exc -> Tool A)))
    (otherwise : exc -> Tool A) (e : exc) : Tool A :=
  match clauses with
  | [] => otherwise e
  | (cls, handler) :: rest =>
      if isinstance e cls then handler e else select rest otherwise e
  end.

Definition try_clauses {A : Type} (body : Tool A)
    (clauses : list (string * (exc -> Tool A))) (otherwise : exc -> Tool A) : Tool A :=
  fun w =>
    match body w with
    | (Return a, w') => (Return a, w')
    | (Raise e, w') => select clauses otherwise e w'
    end.

Definition note (lvl : log_level) (msg : string) : Tool unit :=
  fun w => (Return tt, {| site := site w; steps := steps w ++ [Logged lvl msg] |}).

(** A fetcher operation, recorded as [op]. *)
Definition invoke {A : Type} (op : fetcher_op) (f : S -> result A * S) : Tool A :=
  fun w =>
    let (r, s') := f (site w) in
    (r, {| site := s'; steps := steps w ++ [Invoked op] |}).

(** [await get_confluence_fetcher(ctx)]. *)
Definition await_ops (ctx : Ctx) : Tool (FetcherOps S) :=
  fun w =>
    let (r, s') := get_confluence_fetcher ctx (site w) in
    (r, {| site := s'; steps := steps w |}).

Definition start_in {A : Type} (m : Tool A) (s : S) : result A * session :=
  m {| site := s; steps := [] |}.

Notation "x <- m ;; k" := (and_then m (fun x => k))
  (at level 61, m at next level, right associativity).
Notation "m ;;; k" := (and_then m (fun _ => k))
  (at level 61, right associativity).

(** *** get_page_ancestors *)

Definition get_page_ancestors (ctx : Ctx) (page_id : string) : Tool string :=
  confluence_fetcher <- await_ops ctx ;;
  ancestors <-
    invoke (OpGetPageAncestors page_id)
      (fetcher_get_page_ancestors confluence_fetcher page_id) ;;
  let formatted_ancestors := map to_simplified_dict ancestors in
  done (json_dumps (JList formatted_ancestors)).

(** *** get_space_page_tree *)

Definition get_space_page_tree (ctx : Ctx) (space_key : string) (limit : Z) : Tool string :=
  confluence_fetcher <- await_ops ctx ;;
  tree_data <-
    invoke (OpGetSpacePageTree space_key limit)
      (fetcher_get_space_page_tree confluence_fetcher space_key limit) ;;
  done (json_dumps tree_data).

(** *** list_spaces *)

Definition list_spaces (ctx : Ctx) (limit start : Z) : Tool string :=
  confluence_fetcher <- await_ops ctx ;;
  spaces_response <-
    invoke (OpGetSpaces start limit) (fetcher_get_spaces confluence_fetcher start limit) ;;
  done (json_dumps spaces_response).

(** *** move_page_position *)

Definition move_page_position (ctx : Ctx) (page_id position target_id : string)
    : Tool string :=
  confluence_fetcher <- await_ops ctx ;;
  try_clauses
    (result <-
       invoke (OpMovePagePosition page_id position target_id)
         (fetcher_move_page_position confluence_fetcher page_id position target_id) ;;
     done (json_dumps_ascii
             (JDict [("success", JBool result);
                     ("message",
                      JStr ("Successfully moved page " ++ page_id ++ " to position '"
                            ++ position ++ "' relative to " ++ target_id))])))
    [("ValueError",
      fun e =>
        done (json_dumps_ascii
                (JDict [("success", JBool false); ("error", JStr (exc_str e))])))]
    (fun e =>
       note ERROR ("Error moving page " ++ page_id ++ ": " ++ exc_str e) ;;;
       done (json_dumps_ascii
               (JDict [("success", JBool false);
                       ("error", JStr ("Failed to move page: " ++ exc_str e))]))).

(** *** get_comments *)

Definition get_comments (ctx : Ctx) (page_id : string) : Tool string :=
  confluence_fetcher <- await_ops ctx ;;
  comments <-
    invoke (OpGetPageComments page_id)
      (fetcher_get_page_comments confluence_fetcher page_id) ;;
  let formatted_comments := map simplified_dict comments in
  done (json_dumps (JList formatted_comments)).

(** *** get_labels *)

Definition get_labels (ctx : Ctx) (page_id : string) : Tool string :=
  confluence_fetcher <- await_ops ctx ;;
  labels <-
    invoke (OpGetPageLabels page_id) (fetcher_get_page_labels confluence_fetcher page_id) ;;
  let formatted_labels := map simplified_dict labels in
  done (json_dumps (JList formatted_labels)).

(** *** add_label *)

Definition add_label (ctx : Ctx) (page_id name : string) : Tool string :=
  confluence_fetcher <- await_ops ctx ;;
  labels <-
    invoke (OpAddPageLabel page_id name)
      (fetcher_add_page_label confluence_fetcher page_id name) ;;
  let formatted_labels := map simplified_dict labels in
  done (json_dumps (JList formatted_labels)).

(** *** add_comment *)

Definition add_comment (ctx : Ctx) (page_id content : string) : Tool string :=
  confluence_fetcher <- await_ops ctx ;;
  response <-
    try_clauses
      (comment <-
         invoke (OpAddComment page_id content)
           (fetcher_add_comment confluence_fetcher page_id content) ;;
       match comment with
       | Some comment =>
           let comment_data := simplified_dict comment in
           done (JDict [("success", JBool true);
                        ("message", JStr "Comment added successfully");
                        ("comment", comment_data)])
       | None =>
           done (JDict [("success", JBool false);
                        ("message",
                         JStr ("Unable to add comment to page " ++ page_id
                               ++ ". API request completed but comment creation unsuccessful."))])
       end)
      []
      (fun e =>
         note ERROR ("Error adding comment to Confluence page " ++ page_id ++ ": "
                     ++ exc_str e) ;;;
         done (JDict [("success", JBool false);
                      ("message", JStr ("Error adding comment to page " ++ page_id));
                      ("error", JStr (exc_str e))])) ;;
  done (json_dumps response).

(** *** search_user *)

Definition search_user (ctx : Ctx) (query : string) (limit : Z) : Tool string :=
  confluence_fetcher <- await_ops ctx ;;
  query <-
    (if truthy_str query && negb (existsb (fun x => str_contains x query) user_query_tokens)
     then
       let query := "user.fullname ~ " ++ dq ++ query ++ dq in
       note INFO ("Converting simple search term to user CQL: " ++ query) ;;;
       done query
     else done query) ;;
  try_clauses
    (user_results <-
       invoke (OpSearchUser query limit) (fetcher_search_user confluence_fetcher query limit) ;;
     let search_results := map simplified_dict user_results in
     done (json_dumps (JList search_results)))
    [("MCPAtlassianAuthenticationError",
      fun e =>
        note ERROR ("Authentication error during user search: " ++ exc_str e) ;;;
        done (json_dumps
                (JDict [("error", JStr "Authentication failed. Please check your credentials.");
                        ("details", JStr (exc_str e))])))]
    (fun e =>
       note ERROR ("Error searching users: " ++ exc_str e) ;;;
       done (json_dumps
               (JDict [("error",
                        JStr ("An unexpected error occurred while searching for users: "
                              ++ exc_str e))]))).

(** *** confluence_get_page_views *)

Definition confluence_get_page_views (ctx : Ctx) (page_id : string) (include_title : bool)
    : Tool string :=
  confluence_fetcher <- await_ops ctx ;;
  try_clauses
    (result <-
       invoke (OpGetPageViews page_id include_title)
         (fetcher_get_page_views confluence_fetcher page_id include_title) ;;
     done (json_dumps (simplified_dict result)))
    [("MCPAtlassianAuthenticationError",
      fun e =>
        note ERROR ("Authentication error getting page views: " ++ exc_str e) ;;;
        done (json_dumps
                (JDict [("error", JStr "Authentication failed. Please check your credentials.");
                        ("details", JStr (exc_str e))])));
     ("ValueError",
      fun e =>
        note ERROR ("Error getting page views for " ++ page_id ++ ": " ++ exc_str e) ;;;
        done (json_dumps (JDict [("error", JStr (exc_str e)); ("page_id", JStr page_id)])))]
    (fun e =>
       note ERROR ("Unexpected error getting page views for " ++ page_id ++ ": "
                   ++ exc_str e) ;;;
       done (json_dumps
               (JDict [("error", JStr ("Failed to get page views: " ++ exc_str e));
                       ("page_id", JStr page_id)]))).

End RemainingTools.

Arguments site {S} s.
Arguments steps {S} s.
Arguments start_in {S A} m s.
Arguments get_page_ancestors {S Ctx} get_confluence_fetcher ctx page_id.
Arguments get_space_page_tree {S Ctx} get_confluence_fetcher ctx space_key limit.
Arguments list_spaces {S Ctx} get_confluence_fetcher ctx limit start.
Arguments move_page_position {S Ctx} get_confluence_fetcher issubclass ctx page_id position
  target_id.
Arguments get_comments {S Ctx} get_confluence_fetcher ctx page_id.
Arguments get_labels {S Ctx} get_confluence_fetcher ctx page_id.
Arguments add_label {S Ctx} get_confluence_fetcher ctx page_id name.
Arguments add_comment {S Ctx} get_confluence_fetcher issubclass ctx page_id content.
Arguments search_user {S Ctx} get_confluence_fetcher issubclass ctx query limit.
Arguments confluence_get_page_views {S Ctx} get_confluence_fetcher issubclass ctx page_id
  include_title.

(** ** Sample deployments of the remaining tools *)

(** A class hierarchy in which every class derives from [Exception] only. *)
Definition flat_hierarchy (c d : string) : bool :=
  String.eqb c d || String.eqb d "Exception".

Definition sample_comment : ApiModel :=
  {| simplified_dict := JDict [("id", JStr "42"); ("body", JStr "Looks good")] |}.

Definition failing {A : Type} (cls msg : string) (n : nat) : result A * nat :=
  (Raise {| exc_class := cls; exc_str := msg |}, S n).

(** A site that answers every request: a move is accepted for the three known
    positions and refused with a [ValueError] for any other; a comment is
    created unless its content is empty. *)
Definition healthy_ops : FetcherOps nat :=
  {| fetcher_get_page_ancestors := fun _ => served [sample_page];
     fetcher_get_space_page_tree := fun space_key _ =>
       served (JDict [("space_key", JStr space_key); ("total_pages", JInt 0);
                      ("pages", JList [])]);
     fetcher_get_spaces := fun _ _ => served (JDict [("results", JList [])]);
     fetcher_move_page_position := fun _ position _ =>
       if str_in_list position ["before"; "after"; "append"]
       then served true
       else failing "ValueError" ("Invalid position: " ++ position);
     fetcher_get_page_comments := fun _ => served [];
     fetcher_get_page_labels := fun _ => served [];
     fetcher_add_page_label := fun _ name =>
       served [{| simplified_dict := JDict [("name", JStr name)] |}];
     fetcher_add_comment := fun _ content =>
       served (if truthy_str content then Some sample_comment else None);
     fetcher_search_user := fun _ _ => served [];
     fetcher_get_page_views := fun page_id _ =>
       served {| simplified_dict := JDict [("page_id", JStr page_id); ("total_views", JInt 7)] |}
  |}.

(** A site on which every request fails with an exception of class [cls]. *)
Definition failing_ops (cls msg : string) : FetcherOps nat :=
  {| fetcher_get_page_ancestors := fun _ => failing cls msg;
     fetcher_get_space_page_tree := fun _ _ => failing cls msg;
     fetcher_get_spaces := fun _ _ => failing cls msg;
     fetcher_move_page_position := fun _ _ _ => failing cls msg;
     fetcher_get_page_comments := fun _ => failing cls msg;
     fetcher_get_page_labels := fun _ => failing cls msg;
     fetcher_add_page_label := fun _ _ => failing cls msg;
     fetcher_add_comment := fun _ _ => failing cls msg;
     fetcher_search_user := fun _ _ => failing cls msg;
     fetcher_get_page_views := fun _ _ => failing cls msg |}.

Definition with_ops (f : FetcherOps nat) (_ : unit) (n : nat)
    : result (FetcherOps nat) * nat :=
  (Return f, n).

(** The fetcher operations of the first part that change the site. *)
Definition is_write_call (e : event) : bool :=
  match e with
  | Call (CallCreatePage _) | Call (CallUpdatePage _) | Call (CallDeletePage _) => true
  | _ => false
  end.

(** * Properties *)

(** ** Substring search *)

Lemma append_assoc (a b c : string) : (a ++ b) ++ c = a ++ (b ++ c).
Proof. induction a as [|x a IH]; simpl; [reflexivity | now rewrite IH]. Qed.

Lemma prefix_spec (p s : string) :
  String.prefix p s = true <-> exists rest, s = p ++ rest.
Proof.
  revert s; induction p as [|c p IH]; intros s; simpl.
  - split; [intros _; now exists s | intros _; now destruct s].
  - destruct s as [|d s]; simpl.
    + split; [discriminate | intros [rest H]; discriminate].
    + destruct (Ascii.ascii_dec c d) as [->|Hne].
      * rewrite IH. split; intros [rest H]; exists rest; [now subst | now injection H].
      * split; [discriminate | intros [rest H]; congruence].
Qed.

Lemma str_contains_unfold (needle hay : string) :
  str_contains needle hay =
  if String.prefix needle hay then true
  else match hay with
       | EmptyString => false
       | String _ rest => str_contains needle rest
       end.
Proof. destruct hay; reflexivity. Qed.

(** [str_contains] decides occurrence as a substring. *)
Lemma str_contains_spec (needle hay : string) :
  str_contains needle hay = true <-> occurs_in needle hay.
Proof.
  split.
  - induction hay as [|c hay IH]; rewrite str_contains_unfold;
      destruct (String.prefix needle _) eqn:Hp.
    + intros _. apply prefix_spec in Hp as [rest ->]. now exists EmptyString, rest.
    + discriminate.
    + intros _. apply prefix_spec in Hp as [rest ->]. now exists EmptyString, rest.
    + intros H. destruct (IH H) as (a & b & ->). now exists (String c a), b.
  - intros (a & b & ->). induction a as [|c a IH]; rewrite str_contains_unfold.
    + replace (String.prefix needle (EmptyString ++ needle ++ b)) with true; [reflexivity|].
      symmetry. apply prefix_spec. now exists b.
    + destruct (String.prefix needle (String c a ++ needle ++ b)); [reflexivity | exact IH].
Qed.

Lemma str_contains_false (needle hay : string) :
  str_contains needle hay = false <-> ~ occurs_in needle hay.
Proof.
  rewrite <- str_contains_spec. destruct (str_contains needle hay); split; congruence.
Qed.

(** The query classifier of [search], in terms of occurrences. *)
Lemma has_operator_spec (query : string) :
  has_operator query = true <->
  exists tok, In tok operator_tokens /\ occurs_in tok query.
Proof.
  unfold has_operator. rewrite existsb_exists.
  split; intros (tok & Hin & H); exists tok; split; auto; now apply str_contains_spec.
Qed.

Lemma has_operator_false (query : string) :
  has_operator query = false <->
  forall tok, In tok operator_tokens -> ~ occurs_in tok query.
Proof.
  split.
  - intros H tok Hin Hocc.
    assert (has_operator query = true) by (apply has_operator_spec; eauto).
    congruence.
  - intros H. destruct (has_operator query) eqn:E; [|reflexivity].
    apply has_operator_spec in E as (tok & Hin & Hocc). now destruct (H tok Hin).
Qed.

Lemma truthy_str_spec (s : string) : truthy_str s = true <-> s <> EmptyString.
Proof. destruct s; simpl; split; congruence. Qed.

Lemma str_in_list_false (x : string) (xs : list string) :
  str_in_list x xs = false <-> ~ In x xs.
Proof.
  unfold str_in_list. split.
  - intros H Hin.
    assert (existsb (String.eqb x) xs = true)
      by (apply existsb_exists; exists x; split; [exact Hin | apply String.eqb_refl]).
    congruence.
  - intros H. destruct (existsb (String.eqb x) xs) eqn:E; [|reflexivity].
    apply existsb_exists in E as (y & Hin & Heq). apply String.eqb_eq in Heq. now subst.
Qed.

(** ** Path segments and digit runs *)

Lemma split_on_cons (sep : ascii) (s : string) :
  exists seg segs, split_on sep s = seg :: segs.
Proof.
  destruct s as [|c s]; simpl; [eauto|].
  destruct (Ascii.eqb c sep); [eauto|].
  destruct (split_on sep s); eauto.
Qed.

(** Splitting distributes over a separator between two strings. *)
Lemma split_on_app (sep : ascii) (a b : string) :
  split_on sep (a ++ String sep b) = (split_on sep a ++ split_on sep b)%list.
Proof.
  induction a as [|c a IH]; simpl.
  - now rewrite Ascii.eqb_refl.
  - destruct (Ascii.eqb c sep); [now rewrite IH|].
    rewrite IH. destruct (split_on_cons sep a) as (seg & segs & ->). reflexivity.
Qed.

Lemma split_on_no_char (sep : ascii) (s : string) :
  no_char sep s = true -> split_on sep s = [s].
Proof.
  induction s as [|c s IH]; simpl; [reflexivity|].
  intros H. apply andb_true_iff in H as [Hc Hs].
  apply negb_true_iff in Hc. rewrite Hc, (IH Hs). reflexivity.
Qed.

Lemma digit_is_no_slash (c : ascii) : is_digit c = true -> Ascii.eqb c slash = false.
Proof.
  intros H. apply Ascii.eqb_neq. intros ->. discriminate H.
Qed.

Lemma digit_is_no_h (c : ascii) : is_digit c = true -> c <> "h"%char.
Proof. intros H ->. discriminate H. Qed.

Lemma all_digits_no_slash (s : string) : all_digits s = true -> no_char slash s = true.
Proof.
  induction s as [|c s IH]; simpl; [reflexivity|].
  intros H. apply andb_true_iff in H as [Hc Hs].
  now rewrite (digit_is_no_slash c Hc), (IH Hs).
Qed.

Lemma is_number_spec (s : string) :
  is_number s = true <-> s <> EmptyString /\ all_digits s = true.
Proof.
  unfold is_number. rewrite andb_true_iff, truthy_str_spec. reflexivity.
Qed.

(** A number is no URL: it does not start with [http]. *)
Lemma number_is_no_url (s : string) : is_number s = true -> is_url s = false.
Proof.
  intros H. apply is_number_spec in H as [Hne Hd].
  destruct s as [|c s]; [congruence|].
  simpl in Hd. apply andb_true_iff in Hd as [Hc _].
  apply digit_is_no_h in Hc. unfold is_url.
  apply orb_false_iff; split;
    (destruct (String.prefix _ (String c s)) eqn:E; [|reflexivity]);
    apply prefix_spec in E as [rest E]; injection E as E _; congruence.
Qed.

Lemma is_url_app (p rest : string) : is_url p = true -> is_url (p ++ rest) = true.
Proof.
  unfold is_url. intros H. apply orb_true_iff in H. apply orb_true_iff.
  destruct H as [H|H]; [left|right]; apply prefix_spec in H as [r ->];
    apply prefix_spec; exists (r ++ rest); apply append_assoc.
Qed.

(** The scan for the modern form skips segments that are not [spaces]. *)
Lemma find_modern_skips (before : list string) (key digits : string) (after : list string) :
  ~ In "spaces" before ->
  is_number digits = true ->
  find_modern (before ++ "spaces" :: key :: "pages" :: digits :: after)%list = Some digits.
Proof.
  intros Hnot Hnum. induction before as [|seg before IH].
  - simpl. now rewrite Hnum.
  - assert (Hseg : String.eqb seg "spaces" = false)
      by (apply String.eqb_neq; intros ->; apply Hnot; now left).
    assert (IH' := IH (fun H => Hnot (or_intror H))).
    change ((seg :: before) ++ "spaces" :: key :: "pages" :: digits :: after)%list
      with (seg :: (before ++ "spaces" :: key :: "pages" :: digits :: after))%list.
    destruct before as [|b1 [|b2 [|b3 before]]];
      cbn [find_modern app]; rewrite Hseg; cbn [andb]; exact IH'.
Qed.

Lemma find_modern_none (segs : list string) :
  ~ In "spaces" segs -> find_modern segs = None.
Proof.
  induction segs as [|seg segs IH]; [reflexivity|].
  intros Hnot.
  assert (Hseg : String.eqb seg "spaces" = false)
    by (apply String.eqb_neq; intros ->; apply Hnot; now left).
  cbn [find_modern]. destruct segs as [|k [|p [|d rest]]]; try reflexivity.
  rewrite Hseg. cbn [andb]. apply IH. intros H. apply Hnot. now right.
Qed.

Lemma skip_app (p rest : string) : skip (String.length p) (p ++ rest) = rest.
Proof. induction p as [|c p IH]; simpl; [now destruct rest | exact IH]. Qed.

Lemma find_after_unfold (pat s : string) :
  find_after pat s =
  if String.prefix pat s then Some (skip (String.length pat) s)
  else match s with
       | EmptyString => None
       | String _ rest => find_after pat rest
       end.
Proof. destruct s; reflexivity. Qed.

(** The first occurrence of a pattern that starts with [c], after a string
    without [c], is right behind that string. *)
Lemma find_after_first (c : ascii) (pat before rest : string) :
  no_char c before = true ->
  find_after (String c pat) (before ++ String c pat ++ rest) = Some rest.
Proof.
  intros H. induction before as [|d before IH]; rewrite find_after_unfold.
  - replace (String.prefix (String c pat) (EmptyString ++ String c pat ++ rest)) with true
      by (symmetry; apply prefix_spec; now exists rest).
    f_equal. apply (skip_app (String c pat) rest).
  - simpl in H. apply andb_true_iff in H as [Hd Hb]. apply negb_true_iff in Hd.
    simpl. destruct (Ascii.ascii_dec c d) as [->|_].
    + now rewrite Ascii.eqb_refl in Hd.
    + exact (IH Hb).
Qed.

Lemma take_digits_app (digits rest : string) :
  all_digits digits = true ->
  (forall c r, rest = String c r -> is_digit c = false) ->
  take_digits (digits ++ rest) = digits.
Proof.
  intros Hd Hrest. induction digits as [|c digits IH]; simpl.
  - destruct rest as [|c r]; [reflexivity|]. simpl. now rewrite (Hrest c r eq_refl).
  - simpl in Hd. apply andb_true_iff in Hd as [Hc Hds]. now rewrite Hc, (IH Hds).
Qed.

Section Facts.

#[local] Arguments json_dumps : simpl never.

Variable S : Type.
Variable Ctx : Type.
Variable get_confluence_fetcher : Ctx -> S -> result (ConfluenceFetcher S) * S.

(** Unfolds one handler run down to the fetcher operations it performs. *)
Ltac unfold_run :=
  unfold run, search, get_page, get_page_children, create_page, update_page, delete_page,
    parse_page_id_from_url, bind, try_except, await_fetcher, perform, raise, ret,
    logger_info, logger_warning, logger_error, emit;
  cbn [ext trace fst snd].

(** Projections and boolean connectives on known arguments. *)
Ltac reduce_run := cbn [ext trace fst snd app andb orb negb truthy_opt str_opt].

(** ** search *)

(** C1. For a non-empty query in which no operator token occurs, [search]
    first calls the fetcher's search with [siteSearch ~ "<query>"].  When
    that call returns, it is the only one.  When it raises (any exception),
    the exception is caught and the fetcher's search is called exactly once
    more, with [text ~ "<query>"]; an exception raised by this second call
    is the outcome of the tool. *)
Theorem search_simple_term_falls_back_once
    (ctx : Ctx) (query : string) (limit : Z) (spaces_filter : option string)
    (fetcher : ConfluenceFetcher S) (s0 s1 : S) :
  query <> EmptyString ->
  (forall tok, In tok operator_tokens -> ~ occurs_in tok query) ->
  get_confluence_fetcher ctx s0 = (Return fetcher, s1) ->
  let site_query := "siteSearch ~ " ++ dq ++ query ++ dq in
  let text_query := "text ~ " ++ dq ++ query ++ dq in
  let out := run (search get_confluence_fetcher ctx query limit spaces_filter) s0 in
  (forall pages s2,
      fetcher_search fetcher site_query limit spaces_filter s1 = (Return pages, s2) ->
      fetcher_calls (trace (snd out)) = [Call (CallSearch site_query limit spaces_filter)]
      /\ fst out = Return (json_dumps (JList (map to_simplified_dict pages))))
  /\
  (forall e1 s2,
      fetcher_search fetcher site_query limit spaces_filter s1 = (Raise e1, s2) ->
      fetcher_calls (trace (snd out)) =
        [Call (CallSearch site_query limit spaces_filter);
         Call (CallSearch text_query limit spaces_filter)]
      /\ (forall pages s3,
             fetcher_search fetcher text_query limit spaces_filter s2 = (Return pages, s3) ->
             fst out = Return (json_dumps (JList (map to_simplified_dict pages))))
      /\ (forall e2 s3,
             fetcher_search fetcher text_query limit spaces_filter s2 = (Raise e2, s3) ->
             fst out = Raise e2)).
Proof.
  intros Hne Hop Hlookup site_query text_query out.
  apply truthy_str_spec in Hne. apply has_operator_false in Hop.
  subst out. unfold_run. rewrite Hlookup, Hne, Hop. reduce_run.
  fold site_query text_query.
  split.
  - intros pages s2 H1. rewrite H1. cbn. auto.
  - intros e1 s2 H1. rewrite H1. reduce_run.
    destruct (fetcher_search fetcher text_query limit spaces_filter s2) as [[pages|e2] s3] eqn:H2;
      cbn; repeat split; intros ? ? [=]; subst; reflexivity.
Qed.

(** C2. For a query in which an operator token occurs, [search] makes exactly
    one fetcher call, with the query as it was given; whatever that call
    returns or raises is the outcome, and no second call is attempted. *)
Theorem search_cql_passes_through
    (ctx : Ctx) (query : string) (limit : Z) (spaces_filter : option string)
    (fetcher : ConfluenceFetcher S) (s0 s1 : S) :
  (exists tok, In tok operator_tokens /\ occurs_in tok query) ->
  get_confluence_fetcher ctx s0 = (Return fetcher, s1) ->
  let out := run (search get_confluence_fetcher ctx query limit spaces_filter) s0 in
  fetcher_calls (trace (snd out)) = [Call (CallSearch query limit spaces_filter)]
  /\ (forall pages s2,
         fetcher_search fetcher query limit spaces_filter s1 = (Return pages, s2) ->
         fst out = Return (json_dumps (JList (map to_simplified_dict pages))))
  /\ (forall e s2,
         fetcher_search fetcher query limit spaces_filter s1 = (Raise e, s2) ->
         fst out = Raise e).
Proof.
  intros Hop Hlookup out. apply has_operator_spec in Hop.
  subst out. unfold_run. rewrite Hlookup, Hop, andb_false_r. reduce_run.
  destruct (fetcher_search fetcher query limit spaces_filter s1) as [[pages|e] s2];
    cbn; repeat split; intros ? ? [=]; subst; reflexivity.
Qed.

(** ** get_page *)

(** C3. With a truthy [page_id], [get_page] resolves the page by ID: it
    invokes the fetcher's [get_page_content(str(page_id), convert_to_markdown)]
    and nothing else, the world it leaves is the one that operation left,
    and its response is built from the page (or the exception) that
    operation gave.  [title] and [space_key] are ignored: the outcome and the
    world left behind are those of the same call without them, the tool
    returns (it does not raise), and when either of them was given the
    warning is logged. *)
Theorem get_page_by_id_ignores_title_and_space
    (ctx : Ctx) (page_id : page_id_arg) (title space_key : option string)
    (include_metadata convert_to_markdown : bool)
    (fetcher : ConfluenceFetcher S) (s0 s1 : S) :
  truthy_pid page_id = true ->
  get_confluence_fetcher ctx s0 = (Return fetcher, s1) ->
  let out :=
    run (get_page get_confluence_fetcher ctx page_id title space_key
           include_metadata convert_to_markdown) s0 in
  let bare :=
    run (get_page get_confluence_fetcher ctx page_id None None
           include_metadata convert_to_markdown) s0 in
  fetcher_calls (trace (snd out)) =
    [Call (CallGetPageContent (str_pid page_id) convert_to_markdown)]
  /\ fst out = fst bare
  /\ ext (snd out) = ext (snd bare)
  /\ (exists response, fst out = Return response)
  /\ (truthy_opt title || truthy_opt space_key = true ->
      logged WARNING (trace (snd out)) =
        ["page_id was provided; title and space_key parameters will be ignored."])
  /\ (truthy_opt title || truthy_opt space_key = false ->
      logged WARNING (trace (snd out)) = [])
  /\ (forall page s2,
         fetcher_get_page_content fetcher (str_pid page_id) convert_to_markdown s1
           = (Return page, s2) ->
         ext (snd out) = s2
         /\ fst out =
              Return (json_dumps
                        (if include_metadata
                         then JDict [("metadata", to_simplified_dict page)]
                         else JDict [("content", JDict [("value", JStr (content page))])])))
  /\ (forall e s2,
         fetcher_get_page_content fetcher (str_pid page_id) convert_to_markdown s1
           = (Raise e, s2) ->
         ext (snd out) = s2
         /\ fst out =
              Return (json_dumps
                        (JDict [("error",
                                 JStr ("Failed to retrieve page by ID '" ++ str_pid page_id
                                       ++ "': " ++ exc_str e))]))).
Proof.
  intros Hid Hlookup out bare. subst out bare. unfold_run. rewrite Hlookup, Hid. reduce_run.
  destruct (truthy_opt title || truthy_opt space_key); reduce_run;
    destruct (fetcher_get_page_content fetcher (str_pid page_id) convert_to_markdown s1)
      as [[page|e] s2]; cbn;
    (split; [reflexivity | split; [reflexivity | split; [reflexivity | split; [eauto |
     split; [first [reflexivity | discriminate] |
     split; [first [reflexivity | discriminate] | split]]]]]]);
    intros ? ? [=]; subst; now split.
Qed.

(** C4. Without a [page_id] and with both [title] and [space_key] given, when
    the fetcher's [get_page_by_title] returns no page the tool returns the
    JSON text of the not-found error object; it does not raise. *)
Theorem get_page_by_title_not_found
    (ctx : Ctx) (page_id : page_id_arg) (title space_key : string)
    (include_metadata convert_to_markdown : bool)
    (fetcher : ConfluenceFetcher S) (s0 s1 s2 : S) :
  truthy_pid page_id = false ->
  title <> EmptyString ->
  space_key <> EmptyString ->
  get_confluence_fetcher ctx s0 = (Return fetcher, s1) ->
  fetcher_get_page_by_title fetcher space_key title convert_to_markdown s1 = (Return None, s2) ->
  fst (run (get_page get_confluence_fetcher ctx page_id (Some title) (Some space_key)
              include_metadata convert_to_markdown) s0)
  = Return (json_dumps
              (JDict [("error",
                       JStr ("Page with title '" ++ title ++ "' not found in space '"
                             ++ space_key ++ "'."))])).
Proof.
  intros Hid Ht Hk Hlookup Hfetch.
  apply truthy_str_spec in Ht. apply truthy_str_spec in Hk.
  unfold_run. rewrite Hlookup, Hid. cbn [truthy_opt str_opt]. rewrite Ht, Hk. reduce_run.
  rewrite Hfetch. reflexivity.
Qed.

(** C5. Without a [page_id] and with [title] or [space_key] missing,
    [get_page] raises, and no fetcher operation has been invoked; once the
    fetcher has been obtained the exception is the validation [ValueError],
    and the outside world is as the lookup left it. *)
Theorem get_page_requires_an_identifier
    (ctx : Ctx) (page_id : page_id_arg) (title space_key : option string)
    (include_metadata convert_to_markdown : bool) (s0 : S) :
  truthy_pid page_id = false ->
  truthy_opt title = false \/ truthy_opt space_key = false ->
  let out :=
    run (get_page get_confluence_fetcher ctx page_id title space_key
           include_metadata convert_to_markdown) s0 in
  (exists e, fst out = Raise e)
  /\ fetcher_calls (trace (snd out)) = []
  /\ (forall fetcher s1,
         get_confluence_fetcher ctx s0 = (Return fetcher, s1) ->
         fst out =
           Raise (ValueError
                    "Either 'page_id' OR both 'title' and 'space_key' must be provided.")
         /\ ext (snd out) = s1).
Proof.
  intros Hid Hmissing out.
  assert (Hboth : truthy_opt title && truthy_opt space_key = false)
    by (destruct Hmissing as [-> | ->]; [reflexivity | apply andb_false_r]).
  subst out. unfold_run. rewrite Hid, Hboth.
  destruct (get_confluence_fetcher ctx s0) as [[fetcher|e] s1]; cbn.
  - split; [eauto | split; [reflexivity | intros ? ? [=]; subst; now split]].
  - split; [eauto | split; [reflexivity | intros ? ? [=]]].
Qed.

(** C10. With a truthy [page_id], an exception raised by the fetcher's
    [get_page_content] is caught: the tool returns the JSON text of
    [{"error": "Failed to retrieve page by ID '<page_id>': <exception text>"}].
    In the title and space-key branch an exception raised by
    [get_page_by_title] is the outcome of the tool. *)
Theorem get_page_fetch_errors
    (ctx : Ctx) (page_id : page_id_arg) (title space_key : option string)
    (include_metadata convert_to_markdown : bool)
    (fetcher : ConfluenceFetcher S) (s0 s1 : S) :
  get_confluence_fetcher ctx s0 = (Return fetcher, s1) ->
  let out :=
    run (get_page get_confluence_fetcher ctx page_id title space_key
           include_metadata convert_to_markdown) s0 in
  (truthy_pid page_id = true ->
   (exists response, fst out = Return response)
   /\ forall e s2,
       fetcher_get_page_content fetcher (str_pid page_id) convert_to_markdown s1
         = (Raise e, s2) ->
       fst out =
         Return (json_dumps
                   (JDict [("error",
                            JStr ("Failed to retrieve page by ID '" ++ str_pid page_id
                                  ++ "': " ++ exc_str e))])))
  /\
  (truthy_pid page_id = false ->
   forall t k e s2,
     title = Some t -> t <> EmptyString ->
     space_key = Some k -> k <> EmptyString ->
     fetcher_get_page_by_title fetcher k t convert_to_markdown s1 = (Raise e, s2) ->
     fst out = Raise e).
Proof.
  intros Hlookup out. subst out. split.
  - intros Hid. unfold_run. rewrite Hlookup, Hid. reduce_run.
    destruct (truthy_opt title || truthy_opt space_key); reduce_run;
      destruct (fetcher_get_page_content fetcher (str_pid page_id) convert_to_markdown s1)
        as [[page|e] s2]; cbn; split; eauto; intros ? ? [=]; subst; reflexivity.
  - intros Hid t k e s2 -> Ht -> Hk Hfetch.
    apply truthy_str_spec in Ht. apply truthy_str_spec in Hk.
    unfold_run. rewrite Hlookup, Hid. cbn [truthy_opt str_opt]. rewrite Ht, Hk. reduce_run.
    rewrite Hfetch. reflexivity.
Qed.

(** ** create_page and update_page *)

(** C6. With a [content_format] other than [markdown], [wiki] and [storage],
    [create_page] and [update_page] raise and invoke no fetcher operation;
    once the fetcher has been obtained the exception is the [ValueError]
    that names the offending value, and the outside world is as the lookup
    left it: no page is created or updated. *)
Theorem invalid_content_format_is_rejected
    (ctx : Ctx) (space_key page_id title content : string) (is_minor_edit : bool)
    (version_comment parent_id : option string) (content_format : string)
    (enable_heading_anchors : bool) (emoji page_width : option string) (s0 : S) :
  ~ In content_format content_formats ->
  let created :=
    run (create_page get_confluence_fetcher ctx space_key title content parent_id
           content_format enable_heading_anchors emoji page_width) s0 in
  let updated :=
    run (update_page get_confluence_fetcher ctx page_id title content is_minor_edit
           version_comment parent_id content_format enable_heading_anchors emoji
           page_width) s0 in
  let complaint :=
    ValueError ("Invalid content_format: " ++ content_format
                ++ ". Must be 'markdown', 'wiki', or 'storage'") in
  ((exists e, fst created = Raise e) /\ fetcher_calls (trace (snd created)) = [])
  /\ ((exists e, fst updated = Raise e) /\ fetcher_calls (trace (snd updated)) = [])
  /\ (forall fetcher s1,
         get_confluence_fetcher ctx s0 = (Return fetcher, s1) ->
         (fst created = Raise complaint /\ ext (snd created) = s1)
         /\ (fst updated = Raise complaint /\ ext (snd updated) = s1)).
Proof.
  intros Hbad created updated complaint. apply str_in_list_false in Hbad.
  subst created updated complaint. unfold_run. rewrite Hbad. reduce_run.
  destruct (get_confluence_fetcher ctx s0) as [[fetcher|e] s1]; cbn;
    (split; [split; [eauto | reflexivity] | split; [split; [eauto | reflexivity] | ]]).
  - intros ? ? [=]; subst. now repeat split.
  - intros ? ? [=].
Qed.

(** ** delete_page *)

(** C7, as amended.  Once the fetcher has been obtained, [delete_page] never
    raises: it makes one fetcher call and returns the JSON text of a
    [success]/[message] object for either boolean the fetcher returns, and
    of a [success]/[message]/[error] object when the fetcher raises. *)
Theorem delete_page_reports_every_outcome
    (ctx : Ctx) (page_id : string) (fetcher : ConfluenceFetcher S) (s0 s1 : S) :
  get_confluence_fetcher ctx s0 = (Return fetcher, s1) ->
  let out := run (delete_page get_confluence_fetcher ctx page_id) s0 in
  (exists response, fst out = Return response)
  /\ fetcher_calls (trace (snd out)) = [Call (CallDeletePage page_id)]
  /\ (forall s2,
         fetcher_delete_page fetcher page_id s1 = (Return false, s2) ->
         fst out =
           Return (json_dumps
                     (JDict [("success", JBool false);
                             ("message",
                              JStr ("Unable to delete page " ++ page_id
                                    ++ ". API request completed but deletion unsuccessful."))])))
  /\ (forall s2,
         fetcher_delete_page fetcher page_id s1 = (Return true, s2) ->
         fst out =
           Return (json_dumps
                     (JDict [("success", JBool true);
                             ("message", JStr ("Page " ++ page_id ++ " deleted successfully"))])))
  /\ (forall e s2,
         fetcher_delete_page fetcher page_id s1 = (Raise e, s2) ->
         fst out =
           Return (json_dumps
                     (JDict [("success", JBool false);
                             ("message", JStr ("Error deleting page " ++ page_id));
                             ("error", JStr (exc_str e))]))).
Proof.
  intros Hlookup out. subst out. unfold_run. rewrite Hlookup. reduce_run.
  destruct (fetcher_delete_page fetcher page_id s1) as [[[|]|e] s2]; cbn;
    repeat split; eauto; intros; try discriminate; congruence.
Qed.

(** ** get_page_children *)

(** What [get_page_children] does once its [expand] value is settled: the
    one fetcher operation is invoked with it, the world is the one that
    operation leaves, and the response reports what it gave. *)
Lemma get_page_children_run
    (ctx : Ctx) (parent_id expand : string) (limit : Z)
    (include_content convert_to_markdown : bool) (start : Z) (include_folders : bool)
    (fetcher : ConfluenceFetcher S) (s0 s1 : S) (passed : string) :
  get_confluence_fetcher ctx s0 = (Return fetcher, s1) ->
  (if include_content && negb (str_contains "body" expand)
   then (if truthy_str expand then expand ++ ",body.storage" else "body.storage")
   else expand) = passed ->
  let out :=
    run (get_page_children get_confluence_fetcher ctx parent_id expand limit
           include_content convert_to_markdown start include_folders) s0 in
  fetcher_calls (trace (snd out))
  = [Call (CallGetPageChildren parent_id start limit passed convert_to_markdown
             include_folders)]
  /\ forall r s2,
       fetcher_get_page_children fetcher parent_id start limit passed convert_to_markdown
         include_folders s1 = (r, s2) ->
       ext (snd out) = s2
       /\ fst out =
            Return (json_dumps
                      match r with
                      | Return pages =>
                          JDict [("parent_id", JStr parent_id);
                                 ("count", JInt (Z.of_nat (List.length pages)));
                                 ("limit_requested", JInt limit);
                                 ("start_requested", JInt start);
                                 ("results", JList (map to_simplified_dict pages))]
                      | Raise e =>
                          JDict [("error", JStr ("Failed to get child pages: " ++ exc_str e))]
                      end).
Proof.
  intros Hlookup <- out. subst out. unfold_run. rewrite Hlookup. reduce_run.
  destruct (fetcher_get_page_children fetcher parent_id start limit _ convert_to_markdown
              include_folders s1) as [[pages|e] s2]; cbn;
    (split; [reflexivity | intros ? ? [=]; subst; split; [reflexivity|]]).
  - now rewrite length_map.
  - reflexivity.
Qed.

(** C8. The [expand] value [get_page_children] passes to the fetcher: with
    [include_content] set and no [body] in [expand], it is [expand] followed
    by [,body.storage], or just [body.storage] when [expand] is empty; in
    every other case it is [expand] itself.  A value is passed to the fetcher
    when the fetcher's [get_page_children] is invoked with it: the call is
    recorded with that value, the world after the run is the world that
    operation leaves, and the response reports what that operation gave. *)
Theorem get_page_children_expand
    (ctx : Ctx) (parent_id expand : string) (limit : Z)
    (include_content convert_to_markdown : bool) (start : Z) (include_folders : bool)
    (fetcher : ConfluenceFetcher S) (s0 s1 : S) :
  get_confluence_fetcher ctx s0 = (Return fetcher, s1) ->
  let out :=
    run (get_page_children get_confluence_fetcher ctx parent_id expand limit
           include_content convert_to_markdown start include_folders) s0 in
  let passes (value : string) :=
    fetcher_calls (trace (snd out))
    = [Call (CallGetPageChildren parent_id start limit value convert_to_markdown
               include_folders)]
    /\ forall r s2,
         fetcher_get_page_children fetcher parent_id start limit value convert_to_markdown
           include_folders s1 = (r, s2) ->
         ext (snd out) = s2
         /\ fst out =
              Return (json_dumps
                        match r with
                        | Return pages =>
                            JDict [("parent_id", JStr parent_id);
                                   ("count", JInt (Z.of_nat (List.length pages)));
                                   ("limit_requested", JInt limit);
                                   ("start_requested", JInt start);
                                   ("results", JList (map to_simplified_dict pages))]
                        | Raise e =>
                            JDict [("error",
                                    JStr ("Failed to get child pages: " ++ exc_str e))]
                        end) in
  (include_content = true -> ~ occurs_in "body" expand -> expand <> EmptyString ->
   passes (expand ++ ",body.storage"))
  /\ (include_content = true -> expand = EmptyString -> passes "body.storage")
  /\ (include_content = false \/ occurs_in "body" expand -> passes expand).
Proof.
  intros Hlookup out passes. subst passes out. cbv beta.
  pose proof (get_page_children_run ctx parent_id expand limit include_content
                convert_to_markdown start include_folders fetcher s0 s1) as Hrun.
  cbv zeta in Hrun.
  split; [|split].
  - intros -> Hbody Hne. apply Hrun; [exact Hlookup|].
    apply str_contains_false in Hbody. apply truthy_str_spec in Hne.
    now rewrite Hbody, Hne.
  - intros -> ->. apply Hrun; [exact Hlookup | reflexivity].
  - intros [-> | Hbody]; (apply Hrun; [exact Hlookup|]); [reflexivity|].
    apply str_contains_spec in Hbody. rewrite Hbody. cbn [negb].
    now rewrite andb_false_r.
Qed.

(** ** parse_page_id_from_url *)

(** C9. [parse_page_id_from_url]: a modern URL
    [<base>/spaces/<KEY>/pages/<digits>/<slug>] yields the digits; a legacy
    URL with [?pageId=<digits>] yields those digits; a numeric string is
    returned as it is and an integer as its decimal text; [None] yields
    [None]; a URL of neither form is returned unchanged and a warning is
    logged.  In the modern form no path segment of [<base>] is [spaces] and
    [<KEY>] holds no slash; in the legacy form [?pageId=] is the start of the
    query string and the URL has no path segment [spaces]. *)
Theorem parse_page_id_from_url_cases (s : S) :
  let parsed (arg : page_id_arg) := run (parse_page_id_from_url arg) s in
  let quiet (value : option string) := (Return value, {| ext := s; trace := [] |}) in
  (forall base key digits slug,
      is_url base = true ->
      ~ In "spaces" (split_on slash base) ->
      no_char slash key = true ->
      is_number digits = true ->
      parsed (PidStr (base ++ "/spaces/" ++ key ++ "/pages/" ++ digits ++ "/" ++ slug))
      = quiet (Some digits))
  /\ (forall base digits rest,
         is_url base = true ->
         no_char question_mark base = true ->
         is_number digits = true ->
         (forall c r, rest = String c r -> is_digit c = false) ->
         ~ In "spaces" (split_on slash (base ++ "?pageId=" ++ digits ++ rest)) ->
         parsed (PidStr (base ++ "?pageId=" ++ digits ++ rest)) = quiet (Some digits))
  /\ (forall digits, is_number digits = true -> parsed (PidStr digits) = quiet (Some digits))
  /\ (forall z, parsed (PidInt z) = quiet (Some (str_int z)))
  /\ parsed PidNone = quiet None
  /\ (forall url,
         is_url url = true ->
         modern_page_id url = None ->
         legacy_page_id url = None ->
         fst (parsed (PidStr url)) = Return (Some url)
         /\ ext (snd (parsed (PidStr url))) = s
         /\ exists msg, trace (snd (parsed (PidStr url))) = [Log WARNING msg]).
Proof.
  intros parsed quiet. subst parsed quiet. cbv beta.
  split; [|split; [|split; [|split; [|split]]]].
  - intros base key digits slug Hurl Hbase Hkey Hnum.
    assert (Hmodern : modern_page_id
              (base ++ "/spaces/" ++ key ++ "/pages/" ++ digits ++ "/" ++ slug)
            = Some digits).
    { unfold modern_page_id.
      change (base ++ "/spaces/" ++ key ++ "/pages/" ++ digits ++ "/" ++ slug)
        with (base ++ String slash ("spaces" ++ String slash
                (key ++ String slash ("pages" ++ String slash
                   (digits ++ String slash slug))))).
      rewrite !split_on_app.
      rewrite (split_on_no_char slash key Hkey).
      apply is_number_spec in Hnum as Hd. destruct Hd as [_ Hd].
      rewrite (split_on_no_char slash digits (all_digits_no_slash digits Hd)).
      change (split_on slash "spaces") with ["spaces"].
      change (split_on slash "pages") with ["pages"].
      cbn [app]. now apply find_modern_skips. }
    unfold_run. now rewrite (is_url_app base _ Hurl), Hmodern.
  - intros base digits rest Hurl Hbase Hnum Hrest Hsegs.
    apply is_number_spec in Hnum as [Hne Hd].
    assert (Hlegacy : legacy_page_id (base ++ "?pageId=" ++ digits ++ rest) = Some digits).
    { unfold legacy_page_id.
      change (base ++ "?pageId=" ++ digits ++ rest)
        with (base ++ String question_mark "pageId=" ++ (digits ++ rest)).
      change "?pageId=" with (String question_mark "pageId=").
      rewrite (find_after_first question_mark "pageId=" base (digits ++ rest) Hbase).
      cbv zeta. rewrite (take_digits_app digits rest Hd Hrest).
      apply truthy_str_spec in Hne. now rewrite Hne. }
    unfold_run. rewrite (is_url_app base _ Hurl).
    unfold modern_page_id. now rewrite (find_modern_none _ Hsegs), Hlegacy.
  - intros digits Hnum. unfold_run. now rewrite (number_is_no_url digits Hnum).
  - reflexivity.
  - reflexivity.
  - intros url Hurl Hmodern Hlegacy. unfold_run. rewrite Hurl, Hmodern, Hlegacy. cbn.
    repeat split. eauto.
Qed.

End Facts.

(** * The properties on the sample deployments *)

(** Closes [~ In x l] for a list and a string that are both known. *)
Ltac not_among := cbv; intuition discriminate.

(** Closes [forall tok, In tok operator_tokens -> ~ occurs_in tok q] for a
    known query [q]. *)
Ltac no_operator := apply has_operator_false; reflexivity.

(** On the older server the simple term [project documentation] is searched
    for twice, and the second search answers; on the site that is down the
    second failure reaches the caller. *)
Lemma search_simple_term_witness :
  (fetcher_calls
     (trace (snd (run (search (configured legacy_fetcher) tt "project documentation" 10 None) 0)))
   = [Call (CallSearch ("siteSearch ~ " ++ dq ++ "project documentation" ++ dq) 10 None);
      Call (CallSearch ("text ~ " ++ dq ++ "project documentation" ++ dq) 10 None)]
   /\ fst (run (search (configured legacy_fetcher) tt "project documentation" 10 None) 0)
      = Return (json_dumps (JList [to_simplified_dict sample_page])))
  /\ fst (run (search (configured offline_fetcher) tt "project documentation" 10 None) 0)
     = Raise {| exc_class := "HTTPError"; exc_str := "503 Service Unavailable" |}.
Proof.
  split.
  - destruct (search_simple_term_falls_back_once nat unit (configured legacy_fetcher) tt
                "project documentation" 10 None legacy_fetcher 0 0
                ltac:(discriminate) ltac:(no_operator) eq_refl) as [_ Hraise].
    destruct (Hraise _ 1 eq_refl) as (Hcalls & Hreturn & _).
    split; [exact Hcalls | exact (Hreturn _ 2 eq_refl)].
  - destruct (search_simple_term_falls_back_once nat unit (configured offline_fetcher) tt
                "project documentation" 10 None offline_fetcher 0 0
                ltac:(discriminate) ltac:(no_operator) eq_refl) as [_ Hraise].
    destruct (Hraise _ 1 eq_refl) as (_ & _ & Hpropagates).
    exact (Hpropagates _ 2 eq_refl).
Defined.

(** A CQL query sent to the site that is down: one call, and its failure
    reaches the caller. *)
Lemma search_cql_witness :
  fetcher_calls
    (trace (snd (run (search (configured offline_fetcher) tt "type=page AND space=DEV" 10 None) 0)))
  = [Call (CallSearch "type=page AND space=DEV" 10 None)]
  /\ fst (run (search (configured offline_fetcher) tt "type=page AND space=DEV" 10 None) 0)
     = Raise {| exc_class := "HTTPError"; exc_str := "503 Service Unavailable" |}.
Proof.
  assert (Hop : exists tok, In tok operator_tokens /\ occurs_in tok "type=page AND space=DEV").
  { exists "=". split; [now left | now exists "type", "page AND space=DEV"]. }
  destruct (search_cql_passes_through nat unit (configured offline_fetcher) tt
              "type=page AND space=DEV" 10 None offline_fetcher 0 0 Hop eq_refl)
    as (Hcalls & _ & Hraise).
  split; [exact Hcalls | exact (Hraise _ 1 eq_refl)].
Defined.

(** [get_page(123456789, title="X", space_key="DEV")] on the healthy site. *)
Lemma get_page_by_id_witness :
  fetcher_calls
    (trace (snd (run (get_page (configured healthy_fetcher) tt (PidInt 123456789)
                        (Some "X") (Some "DEV") true true) 0)))
  = [Call (CallGetPageContent "123456789" true)]
  /\ logged WARNING
       (trace (snd (run (get_page (configured healthy_fetcher) tt (PidInt 123456789)
                           (Some "X") (Some "DEV") true true) 0)))
     = ["page_id was provided; title and space_key parameters will be ignored."]
  /\ fst (run (get_page (configured healthy_fetcher) tt (PidInt 123456789)
                 (Some "X") (Some "DEV") true true) 0)
     = Return (json_dumps (JDict [("metadata", to_simplified_dict sample_page)])).
Proof.
  destruct (get_page_by_id_ignores_title_and_space nat unit (configured healthy_fetcher) tt
              (PidInt 123456789) (Some "X") (Some "DEV") true true healthy_fetcher 0 0
              eq_refl eq_refl) as (Hcalls & _ & _ & _ & Hwarn & _ & Hpage & _).
  split; [exact Hcalls | split; [exact (Hwarn eq_refl)|]].
  exact (proj2 (Hpage _ 1%nat eq_refl)).
Defined.

(** [get_page(title="X", space_key="DEV")] on the healthy site, which has no
    page of that title. *)
Lemma get_page_by_title_not_found_witness :
  fst (run (get_page (configured healthy_fetcher) tt PidNone (Some "X") (Some "DEV")
              true true) 0)
  = Return (json_dumps
              (JDict [("error", JStr "Page with title 'X' not found in space 'DEV'.")])).
Proof.
  exact (get_page_by_title_not_found nat unit (configured healthy_fetcher) tt PidNone
           "X" "DEV" true true healthy_fetcher 0 0 1
           eq_refl ltac:(discriminate) ltac:(discriminate) eq_refl eq_refl).
Defined.

(** The text of that response. *)
Example not_found_response_text :
  json_dumps (JDict [("error", JStr "Page with title 'X' not found in space 'DEV'.")])
  = "{" ++ newline ++ "  " ++ dq ++ "error" ++ dq ++ ": "
    ++ dq ++ "Page with title 'X' not found in space 'DEV'." ++ dq ++ newline ++ "}".
Proof. reflexivity. Qed.

(** [get_page()] and [get_page(title="X")] on the healthy site. *)
Lemma get_page_requires_an_identifier_witness :
  fst (run (get_page (configured healthy_fetcher) tt PidNone None None true true) 0)
  = Raise (ValueError "Either 'page_id' OR both 'title' and 'space_key' must be provided.")
  /\ fetcher_calls
       (trace (snd (run (get_page (configured healthy_fetcher) tt PidNone (Some "X") None
                           true true) 0)))
     = [].
Proof.
  split.
  - destruct (get_page_requires_an_identifier nat unit (configured healthy_fetcher) tt
                PidNone None None true true 0 eq_refl (or_introl eq_refl))
      as (_ & _ & Hvalue).
    exact (proj1 (Hvalue healthy_fetcher 0 eq_refl)).
  - exact (proj1 (proj2 (get_page_requires_an_identifier nat unit
                           (configured healthy_fetcher) tt PidNone (Some "X") None true true 0
                           eq_refl (or_intror eq_refl)))).
Defined.

(** [create_page(content_format="bogus", ...)] on the healthy site. *)
Lemma invalid_content_format_witness :
  fst (run (create_page (configured healthy_fetcher) tt "DEV" "Title" "body" None "bogus"
              false None None) 0)
  = Raise (ValueError "Invalid content_format: bogus. Must be 'markdown', 'wiki', or 'storage'")
  /\ fetcher_calls
       (trace (snd (run (update_page (configured healthy_fetcher) tt "123456789" "Title" "body"
                           false None None "bogus" false None None) 0)))
     = [].
Proof.
  destruct (invalid_content_format_is_rejected nat unit (configured healthy_fetcher) tt
              "DEV" "123456789" "Title" "body" false None None "bogus" false None None 0
              ltac:(not_among)) as (_ & (_ & Hcalls) & Hvalue).
  split; [exact (proj1 (proj1 (Hvalue healthy_fetcher 0 eq_refl))) | exact Hcalls].
Defined.

(** On a server without a Confluence client the fetcher lookup of
    [delete_page] raises, and the tool raises with it: the lookup stands
    before the [try] block. *)
Lemma delete_page_raises_without_client :
  fst (run (delete_page unconfigured tt "123456789") 0)
  = Raise (ValueError "Confluence client is not configured or available.").
Proof. reflexivity. Qed.

(** [delete_page] on the healthy site, for a page it does not hold, and on
    the site that is down. *)
Lemma delete_page_witness :
  fst (run (delete_page (configured healthy_fetcher) tt "1") 0)
  = Return (json_dumps
              (JDict [("success", JBool false);
                      ("message",
                       JStr "Unable to delete page 1. API request completed but deletion unsuccessful.")]))
  /\ fst (run (delete_page (configured offline_fetcher) tt "1") 0)
     = Return (json_dumps
                 (JDict [("success", JBool false);
                         ("message", JStr "Error deleting page 1");
                         ("error", JStr "503 Service Unavailable")])).
Proof.
  split.
  - destruct (delete_page_reports_every_outcome nat unit (configured healthy_fetcher) tt "1"
                healthy_fetcher 0 0 eq_refl) as (_ & _ & Hfalse & _).
    exact (Hfalse 1 eq_refl).
  - destruct (delete_page_reports_every_outcome nat unit (configured offline_fetcher) tt "1"
                offline_fetcher 0 0 eq_refl) as (_ & _ & _ & _ & Hraise).
    exact (Hraise _ 1 eq_refl).
Defined.

(** The text of the first of these responses. *)
Example unable_to_delete_response_text :
  json_dumps
    (JDict [("success", JBool false);
            ("message",
             JStr "Unable to delete page 1. API request completed but deletion unsuccessful.")])
  = "{" ++ newline
    ++ "  " ++ dq ++ "success" ++ dq ++ ": false," ++ newline
    ++ "  " ++ dq ++ "message" ++ dq ++ ": " ++ dq
    ++ "Unable to delete page 1. API request completed but deletion unsuccessful."
    ++ dq ++ newline ++ "}".
Proof. reflexivity. Qed.

(** [get_page_children(parent_id="1", include_content=True, expand="version")]
    and the same call with [expand=""]. *)
Lemma get_page_children_expand_witness :
  (fetcher_calls
     (trace (snd (run (get_page_children (configured healthy_fetcher) tt "1" "version" 25
                         true true 0 true) 0)))
   = [Call (CallGetPageChildren "1" 0 25 "version,body.storage" true true)]
   /\ ext (snd (run (get_page_children (configured healthy_fetcher) tt "1" "version" 25
                       true true 0 true) 0)) = 1%nat)
  /\ fetcher_calls
       (trace (snd (run (get_page_children (configured healthy_fetcher) tt "1" EmptyString 25
                           true true 0 true) 0)))
     = [Call (CallGetPageChildren "1" 0 25 "body.storage" true true)].
Proof.
  split.
  - destruct (get_page_children_expand nat unit (configured healthy_fetcher) tt "1" "version"
                25 true true 0 true healthy_fetcher 0 0 eq_refl) as (Happend & _ & _).
    destruct (Happend eq_refl
                ltac:(apply str_contains_false; reflexivity) ltac:(discriminate))
      as [Hcalls Htied].
    split; [exact Hcalls | exact (proj1 (Htied _ 1%nat eq_refl))].
  - destruct (get_page_children_expand nat unit (configured healthy_fetcher) tt "1" EmptyString
                25 true true 0 true healthy_fetcher 0 0 eq_refl) as (_ & Hempty & _).
    exact (proj1 (Hempty eq_refl eq_refl)).
Defined.

(** The cases of the unit tests of [parse_page_id_from_url]. *)
Lemma parse_page_id_from_url_witness :
  run (parse_page_id_from_url
         (PidStr "https://eruditis.atlassian.net/wiki/spaces/TEAM/pages/123456789/Page+Title")) 0
  = (Return (Some "123456789"), {| ext := 0; trace := [] |})
  /\ run (parse_page_id_from_url
            (PidStr "https://site.atlassian.net/wiki/pages/viewpage.action?pageId=987654")) 0
     = (Return (Some "987654"), {| ext := 0; trace := [] |})
  /\ run (parse_page_id_from_url (PidStr "123456")) 0
     = (Return (Some "123456"), {| ext := 0; trace := [] |})
  /\ run (parse_page_id_from_url (PidInt 123456)) 0
     = (Return (Some "123456"), {| ext := 0; trace := [] |})
  /\ run (parse_page_id_from_url PidNone) 0 = (Return None, {| ext := 0; trace := [] |})
  /\ fst (run (parse_page_id_from_url (PidStr "https://example.com/not-a-confluence-url")) 0)
     = Return (Some "https://example.com/not-a-confluence-url")
  /\ run (parse_page_id_from_url
            (PidStr "http://site.atlassian.net/wiki/spaces/DEV/pages/99999/Test")) 0
     = (Return (Some "99999"), {| ext := 0; trace := [] |}).
Proof.
  destruct (parse_page_id_from_url_cases nat 0)
    as (Hmodern & Hlegacy & Hnumber & Hint & Hnone & Hother).
  split; [|split; [|split; [|split; [|split; [|split]]]]].
  - exact (Hmodern "https://eruditis.atlassian.net/wiki" "TEAM" "123456789" "Page+Title"
             eq_refl ltac:(not_among) eq_refl eq_refl).
  - exact (Hlegacy "https://site.atlassian.net/wiki/pages/viewpage.action" "987654" EmptyString
             eq_refl eq_refl eq_refl ltac:(discriminate) ltac:(not_among)).
  - exact (Hnumber "123456" eq_refl).
  - exact (Hint 123456%Z).
  - exact Hnone.
  - exact (proj1 (Hother "https://example.com/not-a-confluence-url" eq_refl eq_refl eq_refl)).
  - exact (Hmodern "http://site.atlassian.net/wiki" "DEV" "99999" "Test"
             eq_refl ltac:(not_among) eq_refl eq_refl).
Defined.

(** [get_page] on the site that is down: by ID the failure is reported in the
    response, by title it reaches the caller. *)
Lemma get_page_fetch_errors_witness :
  fst (run (get_page (configured offline_fetcher) tt (PidStr "123456789") None None
              true true) 0)
  = Return (json_dumps
              (JDict [("error",
                       JStr "Failed to retrieve page by ID '123456789': 503 Service Unavailable")]))
  /\ fst (run (get_page (configured offline_fetcher) tt PidNone (Some "X") (Some "DEV")
                 true true) 0)
     = Raise {| exc_class := "HTTPError"; exc_str := "503 Service Unavailable" |}.
Proof.
  split.
  - destruct (get_page_fetch_errors nat unit (configured offline_fetcher) tt
                (PidStr "123456789") None None true true offline_fetcher 0 0 eq_refl)
      as [Hid _].
    exact (proj2 (Hid eq_refl) _ 1 eq_refl).
  - destruct (get_page_fetch_errors nat unit (configured offline_fetcher) tt
                PidNone (Some "X") (Some "DEV") true true offline_fetcher 0 0 eq_refl)
      as [_ Htitle].
    exact (Htitle eq_refl "X" "DEV" _ 1 eq_refl ltac:(discriminate) eq_refl
             ltac:(discriminate) eq_refl).
Defined.

(** * Further properties of the tools *)

Section MoreFacts.

#[local] Arguments json_dumps : simpl never.

Variable S : Type.
Variable Ctx : Type.
Variable get_confluence_fetcher : Ctx -> S -> result (ConfluenceFetcher S) * S.

Ltac open_run :=
  unfold run, search, get_page, get_page_children, create_page, update_page, delete_page,
    bind, try_except, await_fetcher, perform, raise, ret,
    logger_info, logger_warning, logger_error, emit;
  cbn [ext trace fst snd].

Ltac settle := cbn [ext trace fst snd app andb orb negb truthy_opt truthy_str str_opt].

(** ** search *)

(** X1. An empty query is not rewritten: it goes to the fetcher as it is, in one
    call, nothing is logged, and a failure of that call reaches the caller. *)
Theorem search_empty_query_passes_through
    (ctx : Ctx) (limit : Z) (spaces_filter : option string)
    (fetcher : ConfluenceFetcher S) (s0 s1 : S) :
  get_confluence_fetcher ctx s0 = (Return fetcher, s1) ->
  let out := run (search get_confluence_fetcher ctx EmptyString limit spaces_filter) s0 in
  trace (snd out) = [Call (CallSearch EmptyString limit spaces_filter)]
  /\ (forall pages s2,
         fetcher_search fetcher EmptyString limit spaces_filter s1 = (Return pages, s2) ->
         fst out = Return (json_dumps (JList (map to_simplified_dict pages))))
  /\ (forall e s2,
         fetcher_search fetcher EmptyString limit spaces_filter s1 = (Raise e, s2) ->
         fst out = Raise e).
Proof.
  intros Hlookup out. subst out. open_run. rewrite Hlookup. settle.
  destruct (fetcher_search fetcher EmptyString limit spaces_filter s1) as [[pages|e] s2];
    cbn; (split; [reflexivity | split; intros ? ? [=]; subst; reflexivity]).
Qed.

(** X2. Whatever the query and the fetcher, [search] applies nothing to the
    outside world but the fetcher's search, with the [limit] and
    [spaces_filter] it was given, once or twice: the world after the run is
    the world that search operation left, and the outcome is what its last
    application gave.  A second application happens only for a non-empty
    query without operator tokens whose [siteSearch] form has raised.  When
    the fetcher lookup raises, nothing is invoked and that exception is the
    outcome. *)
Theorem search_call_discipline
    (ctx : Ctx) (query : string) (limit : Z) (spaces_filter : option string) (s0 : S) :
  let out := run (search get_confluence_fetcher ctx query limit spaces_filter) s0 in
  let site_query := "siteSearch ~ " ++ dq ++ query ++ dq in
  let text_query := "text ~ " ++ dq ++ query ++ dq in
  let answer (r : result (list Page)) : result string :=
    match r with
    | Return pages => Return (json_dumps (JList (map to_simplified_dict pages)))
    | Raise e => Raise e
    end in
  let once (fetcher : ConfluenceFetcher S) (q : string) (s1 : S) :=
    fetcher_calls (trace (snd out)) = [Call (CallSearch q limit spaces_filter)]
    /\ ext (snd out) = snd (fetcher_search fetcher q limit spaces_filter s1)
    /\ fst out = answer (fst (fetcher_search fetcher q limit spaces_filter s1)) in
  let twice (fetcher : ConfluenceFetcher S) (q1 q2 : string) (s1 : S) :=
    let s2 := snd (fetcher_search fetcher q1 limit spaces_filter s1) in
    fetcher_calls (trace (snd out)) =
      [Call (CallSearch q1 limit spaces_filter); Call (CallSearch q2 limit spaces_filter)]
    /\ ext (snd out) = snd (fetcher_search fetcher q2 limit spaces_filter s2)
    /\ fst out = answer (fst (fetcher_search fetcher q2 limit spaces_filter s2)) in
  (forall e s1,
      get_confluence_fetcher ctx s0 = (Raise e, s1) ->
      out = (Raise e, {| ext := s1; trace := [] |}))
  /\ (forall fetcher s1,
         get_confluence_fetcher ctx s0 = (Return fetcher, s1) ->
         once fetcher query s1
         \/ (query <> EmptyString
             /\ (forall tok, In tok operator_tokens -> ~ occurs_in tok query)
             /\ (once fetcher site_query s1
                 \/ ((exists e,
                         fst (fetcher_search fetcher site_query limit spaces_filter s1)
                           = Raise e)
                     /\ twice fetcher site_query text_query s1)))).
Proof.
  intros out site_query text_query answer once twice.
  subst once twice answer out. cbv beta zeta. open_run.
  split.
  - intros e s1 Hlookup. rewrite Hlookup. reflexivity.
  - intros fetcher s1 Hlookup. rewrite Hlookup. settle.
    destruct (truthy_str query) eqn:Hq; destruct (has_operator query) eqn:Hop; settle.
    2: { right. apply truthy_str_spec in Hq.
         pose proof (proj1 (has_operator_false query) Hop) as Hno.
         split; [exact Hq | split; [exact Hno|]].
         fold site_query text_query.
         destruct (fetcher_search fetcher site_query limit spaces_filter s1)
           as [[pages|e] s2]; settle.
         - left. cbn. auto.
         - right. split; [cbn; eauto|]. cbn [fst snd].
           destruct (fetcher_search fetcher text_query limit spaces_filter s2)
             as [[pages|e2] s3]; cbn; auto. }
    all: left;
      destruct (fetcher_search fetcher query limit spaces_filter s1) as [[pages|e] s2];
      cbn; auto.
Qed.

(** X3. When the site supports [siteSearch], a simple term gives the same
    response, and leaves the same world, as the CQL query
    [siteSearch ~ "<term>"] written out by the caller. *)
Theorem search_simple_term_is_site_search
    (ctx : Ctx) (query : string) (limit : Z) (spaces_filter : option string)
    (fetcher : ConfluenceFetcher S) (pages : list Page) (s0 s1 s2 : S) :
  query <> EmptyString ->
  (forall tok, In tok operator_tokens -> ~ occurs_in tok query) ->
  get_confluence_fetcher ctx s0 = (Return fetcher, s1) ->
  let site_query := "siteSearch ~ " ++ dq ++ query ++ dq in
  fetcher_search fetcher site_query limit spaces_filter s1 = (Return pages, s2) ->
  let simple := run (search get_confluence_fetcher ctx query limit spaces_filter) s0 in
  let explicit := run (search get_confluence_fetcher ctx site_query limit spaces_filter) s0 in
  fst simple = fst explicit
  /\ ext (snd simple) = ext (snd explicit)
  /\ fetcher_calls (trace (snd simple)) = fetcher_calls (trace (snd explicit)).
Proof.
  intros Hne Hop Hlookup site_query Hfetch simple explicit.
  apply truthy_str_spec in Hne. apply has_operator_false in Hop.
  assert (Hcql : has_operator site_query = true).
  { apply has_operator_spec. exists "~". split; [cbn; tauto|].
    exists "siteSearch ", (" " ++ dq ++ query ++ dq). reflexivity. }
  subst simple explicit. open_run.
  rewrite Hlookup, Hne, Hop, Hcql, andb_false_r. settle.
  fold site_query. rewrite Hfetch. cbn. auto.
Qed.

(** ** get_page *)

(** X4. A [page_id] that is [None], the empty string or the integer zero is
    treated as not given: the run is the one of [get_page] without a
    [page_id], outcome, world and events alike. *)
Theorem get_page_falsy_id_is_no_id
    (ctx : Ctx) (page_id : page_id_arg) (title space_key : option string)
    (include_metadata convert_to_markdown : bool) (s0 : S) :
  truthy_pid page_id = false ->
  run (get_page get_confluence_fetcher ctx page_id title space_key
         include_metadata convert_to_markdown) s0
  = run (get_page get_confluence_fetcher ctx PidNone title space_key
           include_metadata convert_to_markdown) s0.
Proof.
  intros Hid. open_run. rewrite Hid. reflexivity.
Qed.

(** X5. The response for a page that was found depends on the page and on
    [include_metadata] only, not on how the page was identified: by ID and
    by title the tool returns the same text, a [metadata] object or a
    [content] object, never both. *)
Theorem get_page_response_shape
    (ctx : Ctx) (page_id : page_id_arg) (title space_key : string)
    (include_metadata convert_to_markdown : bool)
    (fetcher : ConfluenceFetcher S) (page : Page) (s0 s1 s2 s2' : S) :
  truthy_pid page_id = true ->
  title <> EmptyString ->
  space_key <> EmptyString ->
  get_confluence_fetcher ctx s0 = (Return fetcher, s1) ->
  fetcher_get_page_content fetcher (str_pid page_id) convert_to_markdown s1
    = (Return page, s2) ->
  fetcher_get_page_by_title fetcher space_key title convert_to_markdown s1
    = (Return (Some page), s2') ->
  let by_id :=
    run (get_page get_confluence_fetcher ctx page_id None None
           include_metadata convert_to_markdown) s0 in
  let by_title :=
    run (get_page get_confluence_fetcher ctx PidNone (Some title) (Some space_key)
           include_metadata convert_to_markdown) s0 in
  fst by_id = fst by_title
  /\ fst by_id =
       Return (json_dumps
                 (if include_metadata
                  then JDict [("metadata", to_simplified_dict page)]
                  else JDict [("content", JDict [("value", JStr (content page))])])).
Proof.
  intros Hid Ht Hk Hlookup Hcontent Htitle by_id by_title.
  apply truthy_str_spec in Ht. apply truthy_str_spec in Hk.
  subst by_id by_title. open_run. rewrite Hlookup, Hid. cbn [truthy_pid truthy_opt str_opt orb].
  rewrite Ht, Hk. settle. rewrite Hcontent, Htitle. cbn. auto.
Qed.

(** ** The read tools never write *)

(** X6. The read tools never write.  Once the fetcher has been obtained, the
    world after a run of [get_page] is the world the lookup left (on the
    validation error) or the world left by one application of the fetcher's
    [get_page_content] or [get_page_by_title]; after [get_page_children] it
    is the world left by one application of the fetcher's
    [get_page_children]; after [search] it is the world left by one or two
    applications of the fetcher's search.  No operation that creates,
    updates or deletes a page is applied or recorded. *)
Theorem read_tools_never_write
    (ctx : Ctx) (query : string) (limit : Z) (spaces_filter : option string)
    (page_id : page_id_arg) (title space_key : option string)
    (include_metadata convert_to_markdown : bool)
    (parent_id expand : string) (include_content : bool) (start : Z)
    (include_folders : bool) (fetcher : ConfluenceFetcher S) (s0 s1 : S) :
  get_confluence_fetcher ctx s0 = (Return fetcher, s1) ->
  let searched := snd (run (search get_confluence_fetcher ctx query limit spaces_filter) s0) in
  let got :=
    snd (run (get_page get_confluence_fetcher ctx page_id title space_key
                include_metadata convert_to_markdown) s0) in
  let listed :=
    snd (run (get_page_children get_confluence_fetcher ctx parent_id expand limit
                include_content convert_to_markdown start include_folders) s0) in
  ((exists q, ext searched = snd (fetcher_search fetcher q limit spaces_filter s1))
   \/ (exists q1 q2,
          ext searched =
            snd (fetcher_search fetcher q2 limit spaces_filter
                   (snd (fetcher_search fetcher q1 limit spaces_filter s1)))))
  /\ ((ext got = s1 /\ fetcher_calls (trace got) = [])
      \/ (ext got =
            snd (fetcher_get_page_content fetcher (str_pid page_id) convert_to_markdown s1)
          /\ fetcher_calls (trace got) =
               [Call (CallGetPageContent (str_pid page_id) convert_to_markdown)])
      \/ (ext got =
            snd (fetcher_get_page_by_title fetcher (str_opt space_key) (str_opt title)
                   convert_to_markdown s1)
          /\ fetcher_calls (trace got) =
               [Call (CallGetPageByTitle (str_opt space_key) (str_opt title)
                        convert_to_markdown)]))
  /\ (exists passed,
         ext listed =
           snd (fetcher_get_page_children fetcher parent_id start limit passed
                  convert_to_markdown include_folders s1)
         /\ fetcher_calls (trace listed) =
              [Call (CallGetPageChildren parent_id start limit passed convert_to_markdown
                       include_folders)])
  /\ existsb is_write_call
       (fetcher_calls (trace searched) ++ fetcher_calls (trace got)
        ++ fetcher_calls (trace listed))%list = false.
Proof.
  intros Hlookup searched got listed. subst searched got listed. open_run.
  rewrite Hlookup. settle.
  split; [|split; [|split]].
  - destruct (truthy_str query && negb (has_operator query)); settle.
    + destruct (fetcher_search fetcher _ limit spaces_filter s1) as [[pages|e] s2] eqn:H1;
        settle.
      * left. exists ("siteSearch ~ " ++ dq ++ query ++ dq). rewrite H1. reflexivity.
      * right.
        exists ("siteSearch ~ " ++ dq ++ query ++ dq), ("text ~ " ++ dq ++ query ++ dq).
        rewrite H1. cbn [snd].
        destruct (fetcher_search fetcher _ limit spaces_filter s2) as [[pages|e2] s3];
          reflexivity.
    + left. exists query.
      destruct (fetcher_search fetcher query limit spaces_filter s1) as [[pages|e] s2];
        reflexivity.
  - destruct (truthy_pid page_id); settle.
    + right. left.
      destruct (truthy_opt title || truthy_opt space_key); settle;
        destruct (fetcher_get_page_content fetcher _ convert_to_markdown s1)
          as [[page|e] s2]; cbn; auto.
    + destruct (truthy_opt title && truthy_opt space_key); settle; [|left; cbn; auto].
      right. right.
      destruct (fetcher_get_page_by_title fetcher _ _ convert_to_markdown s1)
        as [[[page|]|e] s2]; cbn; auto.
  - match goal with
    | |- context [fetcher_get_page_children fetcher parent_id start limit ?v
                    convert_to_markdown include_folders s1] =>
        exists v;
        destruct (fetcher_get_page_children fetcher parent_id start limit v
                    convert_to_markdown include_folders s1) as [[pages|e] s2]
    end; cbn; split; reflexivity.
  - destruct (truthy_str query && negb (has_operator query)); settle;
      destruct (truthy_pid page_id); settle;
      repeat match goal with
             | |- context [if ?b then _ else _] => destruct b; settle
             | |- context [let (_, _) := ?f ?s in _] =>
                 lazymatch type of s with S => destruct (f s) as [[?|?] ?]; settle end
             | |- context [match ?o with Some _ => _ | None => _ end] => destruct o; settle
             end; reflexivity.
Qed.

(** ** get_page_children *)

(** X7. Once the fetcher has been obtained, [get_page_children] never raises and
    makes one fetcher call.  An exception of that call is logged and
    reported as [{"error": "Failed to get child pages: <text>"}]; a list of
    pages is reported in an envelope whose [count] is the length of the
    list and which echoes [parent_id], [limit] and [start]. *)
Theorem get_page_children_reports_every_outcome
    (ctx : Ctx) (parent_id expand : string) (limit : Z)
    (include_content convert_to_markdown : bool) (start : Z) (include_folders : bool)
    (fetcher : ConfluenceFetcher S) (s0 s1 : S) :
  get_confluence_fetcher ctx s0 = (Return fetcher, s1) ->
  let out :=
    run (get_page_children get_confluence_fetcher ctx parent_id expand limit
           include_content convert_to_markdown start include_folders) s0 in
  (exists response, fst out = Return response)
  /\ exists passed,
       fetcher_calls (trace (snd out)) =
         [Call (CallGetPageChildren parent_id start limit passed convert_to_markdown
                  include_folders)]
       /\ (forall e s2,
              fetcher_get_page_children fetcher parent_id start limit passed
                convert_to_markdown include_folders s1 = (Raise e, s2) ->
              fst out =
                Return (json_dumps
                          (JDict [("error", JStr ("Failed to get child pages: " ++ exc_str e))]))
              /\ logged ERROR (trace (snd out)) =
                   ["Error getting/processing children for page ID " ++ parent_id ++ ": "
                    ++ exc_str e])
       /\ (forall pages s2,
              fetcher_get_page_children fetcher parent_id start limit passed
                convert_to_markdown include_folders s1 = (Return pages, s2) ->
              fst out =
                Return (json_dumps
                          (JDict [("parent_id", JStr parent_id);
                                  ("count", JInt (Z.of_nat (List.length pages)));
                                  ("limit_requested", JInt limit);
                                  ("start_requested", JInt start);
                                  ("results", JList (map to_simplified_dict pages))]))).
Proof.
  intros Hlookup out. subst out. open_run. rewrite Hlookup. settle.
  match goal with
  | |- context [fetcher_get_page_children fetcher parent_id start limit ?v _ _ s1] =>
      set (passed := v)
  end.
  destruct (fetcher_get_page_children fetcher parent_id start limit passed
              convert_to_markdown include_folders s1) as [[pages|e] s2] eqn:Hfetch; cbn.
  - split; [eauto|]. exists passed. rewrite Hfetch. split; [reflexivity|].
    split; intros ? ? [=]; subst. now rewrite length_map.
  - split; [eauto|]. exists passed. rewrite Hfetch. split; [reflexivity|].
    split; intros ? ? [=]; subst. now split.
Qed.

(** X8. With [include_content] set, the [expand] value with which the
    fetcher's [get_page_children] is invoked always asks for the body, and
    it starts with the [expand] value of the caller: nothing the caller asked
    for is dropped.  The world after the run is the world that operation
    leaves when invoked with that value, and the response reports what it
    gave. *)
Theorem get_page_children_asks_for_body
    (ctx : Ctx) (parent_id expand : string) (limit : Z)
    (convert_to_markdown : bool) (start : Z) (include_folders : bool)
    (fetcher : ConfluenceFetcher S) (s0 s1 : S) :
  get_confluence_fetcher ctx s0 = (Return fetcher, s1) ->
  let out :=
    run (get_page_children get_confluence_fetcher ctx parent_id expand limit
           true convert_to_markdown start include_folders) s0 in
  exists passed,
    occurs_in "body" passed
    /\ (exists added, passed = expand ++ added)
    /\ fetcher_calls (trace (snd out))
       = [Call (CallGetPageChildren parent_id start limit passed convert_to_markdown
                  include_folders)]
    /\ forall r s2,
         fetcher_get_page_children fetcher parent_id start limit passed convert_to_markdown
           include_folders s1 = (r, s2) ->
         ext (snd out) = s2
         /\ fst out =
              Return (json_dumps
                        match r with
                        | Return pages =>
                            JDict [("parent_id", JStr parent_id);
                                   ("count", JInt (Z.of_nat (List.length pages)));
                                   ("limit_requested", JInt limit);
                                   ("start_requested", JInt start);
                                   ("results", JList (map to_simplified_dict pages))]
                        | Raise e =>
                            JDict [("error",
                                    JStr ("Failed to get child pages: " ++ exc_str e))]
                        end).
Proof.
  intros Hlookup out. subst out.
  pose proof (get_page_children_run S Ctx get_confluence_fetcher ctx parent_id expand limit
                true convert_to_markdown start include_folders fetcher s0 s1) as Hrun.
  cbv zeta in Hrun. cbn [andb] in Hrun.
  destruct (str_contains "body" expand) eqn:Hbody; cbn [negb] in Hrun.
  - apply str_contains_spec in Hbody. exists expand.
    split; [exact Hbody | split; [| now apply Hrun]].
    exists EmptyString. clear. induction expand as [|c e IH]; simpl; congruence.
  - destruct expand as [|c e]; cbn [truthy_str] in Hrun.
    + exists "body.storage".
      split; [now exists EmptyString, ".storage" |].
      split; [now exists "body.storage" | now apply Hrun].
    + exists (String c e ++ ",body.storage").
      split; [exists (String c e ++ ","), ".storage"; rewrite append_assoc; reflexivity|].
      split; [now exists ",body.storage" | now apply Hrun].
Qed.

(** ** create_page and update_page *)



End MoreFacts.

(** ** ASCII output of [json.dumps] with [ensure_ascii] left on *)

Lemma all_plain_app (a b : string) : all_plain (a ++ b) = all_plain a && all_plain b.
Proof.
  induction a as [|c a IH]; simpl; [reflexivity|]. now rewrite IH, andb_assoc.
Qed.

Lemma hex_digit_plain (n : nat) : (n < 16)%nat -> all_plain (hex_digit n) = true.
Proof.
  intros H. do 16 (destruct n as [|n]; [reflexivity|]). lia.
Qed.

Lemma hex4_plain (n : N) : all_plain (hex4 n) = true.
Proof.
  unfold hex4. rewrite !all_plain_app.
  rewrite !hex_digit_plain; [reflexivity | | | |]; apply Nat.mod_upper_bound; discriminate.
Qed.

Lemma printable_plain (n : N) :
  (32 <= n)%N -> (n <= 126)%N -> is_plain (ascii_of_N n) = true.
Proof.
  intros Hlo Hhi. unfold is_plain.
  assert (Hn : nat_of_ascii (ascii_of_N n) = N.to_nat n).
  { unfold nat_of_ascii. rewrite N_ascii_embedding; [reflexivity | lia]. }
  rewrite Hn. apply orb_true_iff. left.
  apply andb_true_iff. split; apply Nat.leb_le; lia.
Qed.

Lemma escape_code_point_plain (n : N) : all_plain (escape_code_point n) = true.
Proof.
  unfold escape_code_point.
  repeat (match goal with
          | |- context [if ?b then _ else _] => destruct b eqn:?
          end; try reflexivity).
  - simpl. apply andb_true_iff in Heqb6 as [Hlo Hhi].
    apply N.leb_le in Hlo. apply N.leb_le in Hhi. now rewrite printable_plain.
  - rewrite !all_plain_app, hex4_plain. reflexivity.
  - cbv zeta. rewrite !all_plain_app, !hex4_plain. reflexivity.
Qed.

Lemma concat_plain (parts : list string) :
  Forall (fun part => all_plain part = true) parts ->
  all_plain (String.concat EmptyString parts) = true.
Proof.
  induction 1 as [|part parts Hpart _ IH]; [reflexivity|].
  destruct parts as [|next parts]; [exact Hpart|].
  change (String.concat EmptyString (part :: next :: parts))
    with (part ++ EmptyString ++ String.concat EmptyString (next :: parts)).
  now rewrite !all_plain_app, Hpart, IH.
Qed.

Lemma encode_basestring_ascii_plain (s : string) :
  all_plain (encode_basestring_ascii s) = true.
Proof.
  unfold encode_basestring_ascii. rewrite !all_plain_app, concat_plain; [reflexivity|].
  apply Forall_forall. intros part Hin. apply in_map_iff in Hin as (n & <- & _).
  apply escape_code_point_plain.
Qed.

Lemma digits_plain (d : Decimal.uint) : all_plain (NilEmpty.string_of_uint d) = true.
Proof.
  induction d as [|d IH|d IH|d IH|d IH|d IH|d IH|d IH|d IH|d IH|d IH];
    [reflexivity | ..];
    cbn [NilEmpty.string_of_uint all_plain]; rewrite IH; reflexivity.
Qed.

Lemma string_of_uint_plain (d : Decimal.uint) : all_plain (NilZero.string_of_uint d) = true.
Proof. destruct d; try reflexivity; apply digits_plain. Qed.

Lemma str_int_plain (z : Z) : all_plain (str_int z) = true.
Proof.
  unfold str_int, NilZero.string_of_int.
  destruct (Z.to_int z); simpl; apply string_of_uint_plain.
Qed.

Lemma spaces_plain (n : nat) : all_plain (spaces n) = true.
Proof. induction n as [|k IH]; [reflexivity|]. cbn [spaces all_plain]. now rewrite IH. Qed.

Lemma newline_indent_plain (lvl : nat) : all_plain (newline_indent lvl) = true.
Proof.
  unfold newline_indent. rewrite all_plain_app, spaces_plain. reflexivity.
Qed.

(** Every character [json.dumps(value, indent=2)] writes is printable ASCII
    or a line break. *)
Lemma dumps_ascii_at_plain : forall (j : json) (lvl : nat),
  all_plain (dumps_ascii_at lvl j) = true.
Proof.
  fix IH 1. intros j lvl. destruct j as [ | [|] | z | s | items | items]; try reflexivity.
  - apply str_int_plain.
  - apply encode_basestring_ascii_plain.
  - destruct items as [|x xs]; [reflexivity|]. cbn [dumps_ascii_at].
    match goal with |- context [?f xs] => set (more := f) end.
    assert (Hmore : all_plain (more xs) = true).
    { induction xs as [|y ys IHys]; [reflexivity|].
      change (more (y :: ys))
        with ("," ++ newline_indent (S lvl) ++ dumps_ascii_at (S lvl) y ++ more ys).
      now rewrite !all_plain_app, newline_indent_plain, (IH y (S lvl)), IHys. }
    now rewrite !all_plain_app, !newline_indent_plain, (IH x (S lvl)), Hmore.
  - destruct items as [|[k v] kvs]; [reflexivity|]. cbn [dumps_ascii_at].
    match goal with |- context [?f kvs] => set (more := f) end.
    assert (Hmore : all_plain (more kvs) = true).
    { induction kvs as [|[k' v'] rest IHrest]; [reflexivity|].
      change (more ((k', v') :: rest))
        with ("," ++ newline_indent (S lvl) ++ encode_basestring_ascii k' ++ ": "
              ++ dumps_ascii_at (S lvl) v' ++ more rest).
      now rewrite !all_plain_app, newline_indent_plain, (IH v' (S lvl)),
        encode_basestring_ascii_plain, IHrest. }
    now rewrite !all_plain_app, !newline_indent_plain, (IH v (S lvl)),
      encode_basestring_ascii_plain, Hmore.
Qed.

(** A query holds none of the tokens of a list. *)
Lemma no_token_spec (tokens : list string) (query : string) :
  existsb (fun x => str_contains x query) tokens = false <->
  forall tok, In tok tokens -> ~ occurs_in tok query.
Proof.
  split.
  - intros H tok Hin Hocc.
    assert (existsb (fun x => str_contains x query) tokens = true)
      by (apply existsb_exists; exists tok; split; [exact Hin | now apply str_contains_spec]).
    congruence.
  - intros H. destruct (existsb _ tokens) eqn:E; [|reflexivity].
    apply existsb_exists in E as (tok & Hin & Hocc). apply str_contains_spec in Hocc.
    now destruct (H tok Hin).
Qed.

Lemma some_token_spec (tokens : list string) (query : string) :
  existsb (fun x => str_contains x query) tokens = true <->
  exists tok, In tok tokens /\ occurs_in tok query.
Proof.
  rewrite existsb_exists.
  split; intros (tok & Hin & H); exists tok; split; auto; now apply str_contains_spec.
Qed.

(** * Properties of the remaining tools *)

Section RemainingFacts.

#[local] Arguments json_dumps : simpl never.
#[local] Arguments json_dumps_ascii : simpl never.

Variable S : Type.
Variable Ctx : Type.
Variable get_confluence_fetcher : Ctx -> S -> result (FetcherOps S) * S.
Variable issubclass : string -> string -> bool.

Ltac open_tool :=
  unfold start_in, get_page_ancestors, get_space_page_tree, list_spaces, move_page_position,
    get_comments, get_labels, add_label, add_comment, search_user, confluence_get_page_views,
    and_then, try_clauses, await_ops, invoke, note, done;
  cbn [site steps fst snd].

Ltac settle_tool := cbn [site steps fst snd app andb orb negb select]; unfold isinstance.

(** ** The pass-through tools *)

(** X11. [get_page_ancestors], [get_space_page_tree], [list_spaces],
    [get_comments], [get_labels] and [add_label] have no [try] block: an
    exception of their fetcher operation is the outcome of the tool, nothing
    is logged, and the operation is the only one invoked. *)
Theorem pass_through_tools_do_not_catch
    (ctx : Ctx) (page_id space_key name : string) (limit start : Z)
    (fetcher : FetcherOps S) (s0 s1 : S) :
  get_confluence_fetcher ctx s0 = (Return fetcher, s1) ->
  (forall e s2,
      fetcher_get_page_ancestors fetcher page_id s1 = (Raise e, s2) ->
      start_in (get_page_ancestors get_confluence_fetcher ctx page_id) s0
      = (Raise e, {| site := s2; steps := [Invoked (OpGetPageAncestors page_id)] |}))
  /\ (forall e s2,
         fetcher_get_space_page_tree fetcher space_key limit s1 = (Raise e, s2) ->
         start_in (get_space_page_tree get_confluence_fetcher ctx space_key limit) s0
         = (Raise e, {| site := s2; steps := [Invoked (OpGetSpacePageTree space_key limit)] |}))
  /\ (forall e s2,
         fetcher_get_spaces fetcher start limit s1 = (Raise e, s2) ->
         start_in (list_spaces get_confluence_fetcher ctx limit start) s0
         = (Raise e, {| site := s2; steps := [Invoked (OpGetSpaces start limit)] |}))
  /\ (forall e s2,
         fetcher_get_page_comments fetcher page_id s1 = (Raise e, s2) ->
         start_in (get_comments get_confluence_fetcher ctx page_id) s0
         = (Raise e, {| site := s2; steps := [Invoked (OpGetPageComments page_id)] |}))
  /\ (forall e s2,
         fetcher_get_page_labels fetcher page_id s1 = (Raise e, s2) ->
         start_in (get_labels get_confluence_fetcher ctx page_id) s0
         = (Raise e, {| site := s2; steps := [Invoked (OpGetPageLabels page_id)] |}))
  /\ (forall e s2,
         fetcher_add_page_label fetcher page_id name s1 = (Raise e, s2) ->
         start_in (add_label get_confluence_fetcher ctx page_id name) s0
         = (Raise e, {| site := s2; steps := [Invoked (OpAddPageLabel page_id name)] |})).
Proof.
  intros Hlookup.
  repeat split; intros e s2 Hfetch; open_tool; rewrite Hlookup; settle_tool;
    rewrite Hfetch; reflexivity.
Qed.

(** ** move_page_position *)

(** X12. Once the fetcher has been obtained, [move_page_position] never raises
    and invokes one operation.  The [success] field repeats the boolean the
    fetcher returned, next to a message that always reads
    [Successfully moved ...].  A [ValueError] of the fetcher is reported with
    its own text and is not logged; any other exception is logged and
    reported behind [Failed to move page: ]. *)
Theorem move_page_position_reports_every_outcome
    (ctx : Ctx) (page_id position target_id : string) (fetcher : FetcherOps S) (s0 s1 : S) :
  get_confluence_fetcher ctx s0 = (Return fetcher, s1) ->
  let out :=
    start_in (move_page_position get_confluence_fetcher issubclass ctx page_id position
                target_id) s0 in
  (exists response, fst out = Return response)
  /\ invoked (steps (snd out)) = [OpMovePagePosition page_id position target_id]
  /\ (forall moved s2,
         fetcher_move_page_position fetcher page_id position target_id s1
           = (Return moved, s2) ->
         fst out =
           Return (json_dumps_ascii
                     (JDict [("success", JBool moved);
                             ("message",
                              JStr ("Successfully moved page " ++ page_id ++ " to position '"
                                    ++ position ++ "' relative to " ++ target_id))]))
         /\ log_records (steps (snd out)) = [])
  /\ (forall e s2,
         fetcher_move_page_position fetcher page_id position target_id s1 = (Raise e, s2) ->
         issubclass (exc_class e) "ValueError" = true ->
         fst out =
           Return (json_dumps_ascii
                     (JDict [("success", JBool false); ("error", JStr (exc_str e))]))
         /\ log_records (steps (snd out)) = [])
  /\ (forall e s2,
         fetcher_move_page_position fetcher page_id position target_id s1 = (Raise e, s2) ->
         issubclass (exc_class e) "ValueError" = false ->
         fst out =
           Return (json_dumps_ascii
                     (JDict [("success", JBool false);
                             ("error", JStr ("Failed to move page: " ++ exc_str e))]))
         /\ log_records (steps (snd out)) =
              [(ERROR, "Error moving page " ++ page_id ++ ": " ++ exc_str e)]).
Proof.
  intros Hlookup out. subst out. open_tool. rewrite Hlookup. settle_tool.
  destruct (fetcher_move_page_position fetcher page_id position target_id s1)
    as [[moved|e] s2]; settle_tool.
  - cbn. repeat split; eauto; intros; try discriminate; congruence.
  - destruct (issubclass (exc_class e) "ValueError") eqn:Hclass; cbn;
      (split; [eauto | split; [reflexivity | split; [intros ? ? [=] | split]]]);
      intros ? ? [=] Hc; subst; solve [now split | congruence].
Qed.

(** X13. The response of [move_page_position] is plain ASCII whatever the
    identifiers and the exception text hold: [json.dumps] runs with
    [ensure_ascii] left on. *)
Theorem move_page_position_answers_in_ascii
    (ctx : Ctx) (page_id position target_id : string) (fetcher : FetcherOps S) (s0 s1 : S) :
  get_confluence_fetcher ctx s0 = (Return fetcher, s1) ->
  exists response,
    fst (start_in (move_page_position get_confluence_fetcher issubclass ctx page_id position
                     target_id) s0) = Return response
    /\ all_plain response = true.
Proof.
  intros Hlookup. open_tool. rewrite Hlookup. settle_tool.
  destruct (fetcher_move_page_position fetcher page_id position target_id s1)
    as [[moved|e] s2]; settle_tool.
  - cbn. eexists. split; [reflexivity | apply dumps_ascii_at_plain].
  - destruct (issubclass (exc_class e) "ValueError"); cbn;
      (eexists; split; [reflexivity | apply dumps_ascii_at_plain]).
Qed.

(** ** add_comment *)

(** X14. Once the fetcher has been obtained, [add_comment] never raises and
    invokes one operation: a comment object is reported with [success] true
    and its simplified form, a missing one ([None]) with [success] false and
    a message naming the page, and an exception is logged and reported with
    [success] false and its text under [error]. *)
Theorem add_comment_reports_every_outcome
    (ctx : Ctx) (page_id content : string) (fetcher : FetcherOps S) (s0 s1 : S) :
  get_confluence_fetcher ctx s0 = (Return fetcher, s1) ->
  let out := start_in (add_comment get_confluence_fetcher issubclass ctx page_id content) s0 in
  (exists response, fst out = Return response)
  /\ invoked (steps (snd out)) = [OpAddComment page_id content]
  /\ (forall comment s2,
         fetcher_add_comment fetcher page_id content s1 = (Return (Some comment), s2) ->
         fst out =
           Return (json_dumps
                     (JDict [("success", JBool true);
                             ("message", JStr "Comment added successfully");
                             ("comment", simplified_dict comment)])))
  /\ (forall s2,
         fetcher_add_comment fetcher page_id content s1 = (Return None, s2) ->
         fst out =
           Return (json_dumps
                     (JDict [("success", JBool false);
                             ("message",
                              JStr ("Unable to add comment to page " ++ page_id
                                    ++ ". API request completed but comment creation unsuccessful."))])))
  /\ (forall e s2,
         fetcher_add_comment fetcher page_id content s1 = (Raise e, s2) ->
         fst out =
           Return (json_dumps
                     (JDict [("success", JBool false);
                             ("message", JStr ("Error adding comment to page " ++ page_id));
                             ("error", JStr (exc_str e))]))
         /\ log_records (steps (snd out)) =
              [(ERROR, "Error adding comment to Confluence page " ++ page_id ++ ": "
                       ++ exc_str e)]).
Proof.
  intros Hlookup out. subst out. open_tool. rewrite Hlookup. settle_tool.
  destruct (fetcher_add_comment fetcher page_id content s1) as [[[comment|]|e] s2]; cbn;
    (split; [eauto | split; [reflexivity | split; [| split]]]);
    intros; try discriminate; try split; congruence.
Qed.

(** ** search_user *)

Ltac finish_search_user A B :=
  match goal with
  | |- context [fetcher_search_user ?f ?q ?l ?s] =>
      destruct (fetcher_search_user f q l s) as [[users|e] s2] eqn:Hfetch; settle_tool;
      try (destruct (issubclass (exc_class e) "MCPAtlassianAuthenticationError") eqn:Hclass);
      cbn;
      (split; [reflexivity
              | split; [exact A | split; [exact B | split; [eauto | split; [| split]]]]]);
      first [ intros ? ? [=] ?; subst; congruence | intros ? ? [=]; subst; congruence ]
  end.

(** X15. Once the fetcher has been obtained, [search_user] never raises and
    invokes the user search once: with [user.fullname ~ "<query>"] for a
    non-empty query that holds none of the tokens and no [user.], with the
    query as given otherwise.  There is no second attempt: an authentication
    error is reported as such with its text under [details], any other
    exception as an unexpected error. *)
Theorem search_user_reports_every_outcome
    (ctx : Ctx) (query : string) (limit : Z) (fetcher : FetcherOps S) (s0 s1 : S) :
  get_confluence_fetcher ctx s0 = (Return fetcher, s1) ->
  let out := start_in (search_user get_confluence_fetcher issubclass ctx query limit) s0 in
  exists passed,
    invoked (steps (snd out)) = [OpSearchUser passed limit]
    /\ (query <> EmptyString ->
        (forall tok, In tok user_query_tokens -> ~ occurs_in tok query) ->
        passed = "user.fullname ~ " ++ dq ++ query ++ dq)
    /\ (query = EmptyString \/ (exists tok, In tok user_query_tokens /\ occurs_in tok query) ->
        passed = query)
    /\ (exists response, fst out = Return response)
    /\ (forall users s2,
           fetcher_search_user fetcher passed limit s1 = (Return users, s2) ->
           fst out = Return (json_dumps (JList (map simplified_dict users))))
    /\ (forall e s2,
           fetcher_search_user fetcher passed limit s1 = (Raise e, s2) ->
           issubclass (exc_class e) "MCPAtlassianAuthenticationError" = true ->
           fst out =
             Return (json_dumps
                       (JDict [("error",
                                JStr "Authentication failed. Please check your credentials.");
                               ("details", JStr (exc_str e))])))
    /\ (forall e s2,
           fetcher_search_user fetcher passed limit s1 = (Raise e, s2) ->
           issubclass (exc_class e) "MCPAtlassianAuthenticationError" = false ->
           fst out =
             Return (json_dumps
                       (JDict [("error",
                                JStr ("An unexpected error occurred while searching for users: "
                                      ++ exc_str e))]))).
Proof.
  intros Hlookup out. subst out. open_tool. rewrite Hlookup. settle_tool.
  destruct (truthy_str query) eqn:Hq;
    destruct (existsb (fun x => str_contains x query) user_query_tokens) eqn:Htok;
    settle_tool.
  - exists query.
    assert (A : query <> EmptyString ->
                (forall tok, In tok user_query_tokens -> ~ occurs_in tok query) ->
                query = "user.fullname ~ " ++ dq ++ query ++ dq)
      by (intros _ Hnone; apply no_token_spec in Hnone; congruence).
    assert (B : query = EmptyString
                \/ (exists tok, In tok user_query_tokens /\ occurs_in tok query) ->
                query = query) by reflexivity.
    finish_search_user A B.
  - exists ("user.fullname ~ " ++ dq ++ query ++ dq).
    assert (A : query <> EmptyString ->
                (forall tok, In tok user_query_tokens -> ~ occurs_in tok query) ->
                "user.fullname ~ " ++ dq ++ query ++ dq
                = "user.fullname ~ " ++ dq ++ query ++ dq) by reflexivity.
    assert (B : query = EmptyString
                \/ (exists tok, In tok user_query_tokens /\ occurs_in tok query) ->
                "user.fullname ~ " ++ dq ++ query ++ dq = query)
      by (intros [-> | Hsome];
          [discriminate Hq | apply some_token_spec in Hsome; congruence]).
    finish_search_user A B.
  - exists query.
    assert (A : query <> EmptyString ->
                (forall tok, In tok user_query_tokens -> ~ occurs_in tok query) ->
                query = "user.fullname ~ " ++ dq ++ query ++ dq)
      by (intros Hne _; apply truthy_str_spec in Hne; congruence).
    assert (B : query = EmptyString
                \/ (exists tok, In tok user_query_tokens /\ occurs_in tok query) ->
                query = query) by reflexivity.
    finish_search_user A B.
  - exists query.
    assert (A : query <> EmptyString ->
                (forall tok, In tok user_query_tokens -> ~ occurs_in tok query) ->
                query = "user.fullname ~ " ++ dq ++ query ++ dq)
      by (intros Hne _; apply truthy_str_spec in Hne; congruence).
    assert (B : query = EmptyString
                \/ (exists tok, In tok user_query_tokens /\ occurs_in tok query) ->
                query = query) by reflexivity.
    finish_search_user A B.
Qed.

(** X16. A simple term gives the same response, the same fetcher operation and
    the same world as the CQL query [user.fullname ~ "<term>"] written out
    by the caller, whether the search succeeds or fails. *)
Theorem search_user_simple_term_is_fullname_search
    (ctx : Ctx) (query : string) (limit : Z) (fetcher : FetcherOps S) (s0 s1 : S) :
  query <> EmptyString ->
  (forall tok, In tok user_query_tokens -> ~ occurs_in tok query) ->
  get_confluence_fetcher ctx s0 = (Return fetcher, s1) ->
  let simple := start_in (search_user get_confluence_fetcher issubclass ctx query limit) s0 in
  let explicit :=
    start_in (search_user get_confluence_fetcher issubclass ctx
                ("user.fullname ~ " ++ dq ++ query ++ dq) limit) s0 in
  fst simple = fst explicit
  /\ site (snd simple) = site (snd explicit)
  /\ invoked (steps (snd simple)) = invoked (steps (snd explicit)).
Proof.
  intros Hne Hnone Hlookup simple explicit.
  apply truthy_str_spec in Hne. apply no_token_spec in Hnone.
  assert (Hcql : existsb (fun x => str_contains x ("user.fullname ~ " ++ dq ++ query ++ dq))
                   user_query_tokens = true).
  { apply some_token_spec. exists "~". split; [cbn; tauto|].
    exists "user.fullname ", (" " ++ dq ++ query ++ dq). reflexivity. }
  subst simple explicit. open_tool. rewrite Hlookup, Hne, Hnone, Hcql, andb_false_r.
  settle_tool.
  destruct (fetcher_search_user fetcher _ limit s1) as [[users|e] s2]; settle_tool;
    [cbn; auto|].
  destruct (issubclass (exc_class e) "MCPAtlassianAuthenticationError"); cbn; auto.
Qed.

(** ** confluence_get_page_views *)

(** X17. Once the fetcher has been obtained, [confluence_get_page_views] never
    raises and invokes one operation.  The [except] clauses are tried in
    order: an authentication error gives the authentication payload, also
    when it is a [ValueError] as well; another [ValueError] gives its own text
    with the [page_id]; anything else gives [Failed to get page views: ...]
    with the [page_id]. *)
Theorem page_views_error_shapes
    (ctx : Ctx) (page_id : string) (include_title : bool) (fetcher : FetcherOps S)
    (s0 s1 : S) :
  get_confluence_fetcher ctx s0 = (Return fetcher, s1) ->
  let out :=
    start_in (confluence_get_page_views get_confluence_fetcher issubclass ctx page_id
                include_title) s0 in
  (exists response, fst out = Return response)
  /\ invoked (steps (snd out)) = [OpGetPageViews page_id include_title]
  /\ (forall views s2,
         fetcher_get_page_views fetcher page_id include_title s1 = (Return views, s2) ->
         fst out = Return (json_dumps (simplified_dict views)))
  /\ (forall e s2,
         fetcher_get_page_views fetcher page_id include_title s1 = (Raise e, s2) ->
         (issubclass (exc_class e) "MCPAtlassianAuthenticationError" = true ->
          fst out =
            Return (json_dumps
                      (JDict [("error",
                               JStr "Authentication failed. Please check your credentials.");
                              ("details", JStr (exc_str e))])))
         /\ (issubclass (exc_class e) "MCPAtlassianAuthenticationError" = false ->
             issubclass (exc_class e) "ValueError" = true ->
             fst out =
               Return (json_dumps
                         (JDict [("error", JStr (exc_str e)); ("page_id", JStr page_id)])))
         /\ (issubclass (exc_class e) "MCPAtlassianAuthenticationError" = false ->
             issubclass (exc_class e) "ValueError" = false ->
             fst out =
               Return (json_dumps
                         (JDict [("error", JStr ("Failed to get page views: " ++ exc_str e));
                                 ("page_id", JStr page_id)])))).
Proof.
  intros Hlookup out. subst out. open_tool. rewrite Hlookup. settle_tool.
  destruct (fetcher_get_page_views fetcher page_id include_title s1) as [[views|e] s2];
    settle_tool.
  - cbn. repeat split; eauto; intros; try discriminate; congruence.
  - destruct (issubclass (exc_class e) "MCPAtlassianAuthenticationError") eqn:Hauth;
      [|destruct (issubclass (exc_class e) "ValueError") eqn:Hvalue]; cbn;
      (split; [eauto | split; [reflexivity | split; [intros ? ? [=]|]]]);
      intros ? ? [=]; subst; repeat split; intros; congruence.
Qed.

(** ** What the remaining tools never do *)

(** Case analysis on every answer of the fetcher and every test of a run. *)
Ltac crack_run :=
  repeat (settle_tool;
          match goal with
          | |- context [if ?b then _ else _] => destruct b
          | |- context [let (_, _) := ?f ?s in _] =>
              lazymatch type of s with S => destruct (f s) as [[?|?] ?] end
          | |- context [match ?o with Some _ => _ | None => _ end] => destruct o
          end).

(** X18. What the remaining tools apply to the outside world.  When the
    fetcher lookup raises, each of the ten tools raises that exception and
    invokes nothing.  Once the fetcher has been obtained, each tool applies
    its own fetcher operation exactly once and nothing else: the world after
    the run is the world that operation left.  For the seven read tools this
    is a read operation ([get_page_ancestors], [get_space_page_tree],
    [get_spaces], [get_page_comments], [get_page_labels], [search_user],
    [get_page_views]): they never change the site. *)
Theorem remaining_tools_call_discipline
    (ctx : Ctx) (page_id space_key position target_id name content query : string)
    (limit start : Z) (include_title : bool) (s0 : S) :
  let fails {A : Type} (m : Tool S A) (e : exc) (s1 : S) :=
    start_in m s0 = (Raise e, {| site := s1; steps := [] |}) in
  let applies {A B : Type} (m : Tool S A) (op : fetcher_op) (f : S -> result B * S)
      (s1 : S) :=
    invoked (steps (snd (start_in m s0))) = [op]
    /\ site (snd (start_in m s0)) = snd (f s1) in
  (forall e s1,
      get_confluence_fetcher ctx s0 = (Raise e, s1) ->
      fails (get_page_ancestors get_confluence_fetcher ctx page_id) e s1
      /\ fails (get_space_page_tree get_confluence_fetcher ctx space_key limit) e s1
      /\ fails (list_spaces get_confluence_fetcher ctx limit start) e s1
      /\ fails (get_comments get_confluence_fetcher ctx page_id) e s1
      /\ fails (get_labels get_confluence_fetcher ctx page_id) e s1
      /\ fails (search_user get_confluence_fetcher issubclass ctx query limit) e s1
      /\ fails (confluence_get_page_views get_confluence_fetcher issubclass ctx page_id
                  include_title) e s1
      /\ fails (move_page_position get_confluence_fetcher issubclass ctx page_id position
                  target_id) e s1
      /\ fails (add_label get_confluence_fetcher ctx page_id name) e s1
      /\ fails (add_comment get_confluence_fetcher issubclass ctx page_id content) e s1)
  /\ (forall fetcher s1,
         get_confluence_fetcher ctx s0 = (Return fetcher, s1) ->
         applies (get_page_ancestors get_confluence_fetcher ctx page_id)
           (OpGetPageAncestors page_id) (fetcher_get_page_ancestors fetcher page_id) s1
         /\ applies (get_space_page_tree get_confluence_fetcher ctx space_key limit)
              (OpGetSpacePageTree space_key limit)
              (fetcher_get_space_page_tree fetcher space_key limit) s1
         /\ applies (list_spaces get_confluence_fetcher ctx limit start)
              (OpGetSpaces start limit) (fetcher_get_spaces fetcher start limit) s1
         /\ applies (get_comments get_confluence_fetcher ctx page_id)
              (OpGetPageComments page_id) (fetcher_get_page_comments fetcher page_id) s1
         /\ applies (get_labels get_confluence_fetcher ctx page_id)
              (OpGetPageLabels page_id) (fetcher_get_page_labels fetcher page_id) s1
         /\ (exists passed,
                (passed = query \/ passed = "user.fullname ~ " ++ dq ++ query ++ dq)
                /\ applies (search_user get_confluence_fetcher issubclass ctx query limit)
                     (OpSearchUser passed limit) (fetcher_search_user fetcher passed limit) s1)
         /\ applies (confluence_get_page_views get_confluence_fetcher issubclass ctx page_id
                       include_title)
              (OpGetPageViews page_id include_title)
              (fetcher_get_page_views fetcher page_id include_title) s1
         /\ applies (move_page_position get_confluence_fetcher issubclass ctx page_id position
                       target_id)
              (OpMovePagePosition page_id position target_id)
              (fetcher_move_page_position fetcher page_id position target_id) s1
         /\ applies (add_label get_confluence_fetcher ctx page_id name)
              (OpAddPageLabel page_id name) (fetcher_add_page_label fetcher page_id name) s1
         /\ applies (add_comment get_confluence_fetcher issubclass ctx page_id content)
              (OpAddComment page_id content)
              (fetcher_add_comment fetcher page_id content) s1).
Proof.
  intros fails applies. subst fails applies. cbv beta. open_tool. split.
  - intros e s1 Hlookup. rewrite Hlookup. repeat split.
  - intros fetcher s1 Hlookup. rewrite Hlookup. settle_tool.
    repeat match goal with
           | |- _ /\ _ => split
           end.
    all: try solve [ crack_run; cbn; reflexivity ].
    destruct (truthy_str query && negb (existsb (fun x => str_contains x query)
                                            user_query_tokens)); settle_tool.
    + exists ("user.fullname ~ " ++ dq ++ query ++ dq). split; [now right|].
      destruct (fetcher_search_user fetcher _ limit s1) as [[?|?] ?]; settle_tool;
        crack_run; cbn; split; reflexivity.
    + exists query. split; [now left|].
      destruct (fetcher_search_user fetcher query limit s1) as [[?|?] ?]; settle_tool;
        crack_run; cbn; split; reflexivity.
Qed.

End RemainingFacts.

(** * The further properties on the sample deployments *)

(** [search("")] on the site that is down. *)
Lemma search_empty_query_witness :
  trace (snd (run (search (configured offline_fetcher) tt EmptyString 10 None) 0))
  = [Call (CallSearch EmptyString 10 None)]
  /\ fst (run (search (configured offline_fetcher) tt EmptyString 10 None) 0)
     = Raise {| exc_class := "HTTPError"; exc_str := "503 Service Unavailable" |}.
Proof.
  destruct (search_empty_query_passes_through nat unit (configured offline_fetcher) tt 10 None
              offline_fetcher 0 0 eq_refl) as (Htrace & _ & Hraise).
  split; [exact Htrace | exact (Hraise _ 1 eq_refl)].
Defined.

(** [search("project documentation")] and
    [search('siteSearch ~ "project documentation"')] on the healthy site. *)
Lemma search_simple_term_is_site_search_witness :
  fst (run (search (configured healthy_fetcher) tt "project documentation" 10 None) 0)
  = fst (run (search (configured healthy_fetcher) tt
                ("siteSearch ~ " ++ dq ++ "project documentation" ++ dq) 10 None) 0).
Proof.
  exact (proj1 (search_simple_term_is_site_search nat unit (configured healthy_fetcher) tt
                  "project documentation" 10 None healthy_fetcher [sample_page] 0 0 1
                  ltac:(discriminate) ltac:(no_operator) eq_refl eq_refl)).
Defined.

(** [get_page(page_id=0, title="Page Title", space_key="DEV")] is the lookup
    by title. *)
Lemma get_page_falsy_id_witness :
  run (get_page (configured healthy_fetcher) tt (PidInt 0) (Some "Page Title") (Some "DEV")
         true true) 0
  = run (get_page (configured healthy_fetcher) tt PidNone (Some "Page Title") (Some "DEV")
           true true) 0.
Proof.
  exact (get_page_falsy_id_is_no_id nat unit (configured healthy_fetcher) tt (PidInt 0)
           (Some "Page Title") (Some "DEV") true true 0 eq_refl).
Defined.

(** The sample page, by ID and by title, without metadata. *)
Lemma get_page_response_shape_witness :
  fst (run (get_page (configured healthy_fetcher) tt (PidStr "123456789") None None
              false true) 0)
  = Return (json_dumps (JDict [("content", JDict [("value", JStr "Hello")])])).
Proof.
  exact (proj2 (get_page_response_shape nat unit (configured healthy_fetcher) tt
                  (PidStr "123456789") "Page Title" "DEV" false true healthy_fetcher
                  sample_page 0 0 1 1 eq_refl ltac:(discriminate) ltac:(discriminate)
                  eq_refl eq_refl eq_refl)).
Defined.

(** [get_page_children] on the site that is down. *)
Lemma get_page_children_outcome_witness :
  exists response,
    fst (run (get_page_children (configured offline_fetcher) tt "1" "version" 25
                false true 0 true) 0) = Return response.
Proof.
  exact (proj1 (get_page_children_reports_every_outcome nat unit (configured offline_fetcher)
                  tt "1" "version" 25 false true 0 true offline_fetcher 0 0 eq_refl)).
Defined.

(** [get_page_children(include_content=True, expand="version,ancestors")]. *)
Lemma get_page_children_asks_for_body_witness :
  exists passed,
    occurs_in "body" passed
    /\ (exists added, passed = "version,ancestors" ++ added)
    /\ fetcher_calls
         (trace (snd (run (get_page_children (configured healthy_fetcher) tt "1"
                             "version,ancestors" 25 true true 0 true) 0)))
       = [Call (CallGetPageChildren "1" 0 25 passed true true)].
Proof.
  destruct (get_page_children_asks_for_body nat unit (configured healthy_fetcher) tt "1"
              "version,ancestors" 25 true 0 true healthy_fetcher 0 0 eq_refl)
    as (passed & Hbody & Hkept & Hcalls & _).
  exists passed. auto.
Defined.

(** The three read tools on the healthy site: the world after each run is the
    world one read operation left. *)
Lemma read_tools_never_write_witness :
  existsb is_write_call
    (fetcher_calls
       (trace (snd (run (search (configured healthy_fetcher) tt "type=page" 10 None) 0)))
     ++ fetcher_calls
          (trace (snd (run (get_page (configured healthy_fetcher) tt (PidStr "123456789")
                              None None true true) 0)))
     ++ fetcher_calls
          (trace (snd (run (get_page_children (configured healthy_fetcher) tt "1" "version"
                              25 false true 0 true) 0))))%list
  = false.
Proof.
  exact (proj2 (proj2 (proj2
           (read_tools_never_write nat unit (configured healthy_fetcher) tt "type=page" 10
              None (PidStr "123456789") None None true true "1" "version" false 0 true
              healthy_fetcher 0 0 eq_refl)))).
Defined.



(** [get_comments] on a site that answers 503. *)
Lemma pass_through_tools_witness :
  start_in (get_comments (with_ops (failing_ops "HTTPError" "503 Service Unavailable"))
              tt "123456789") 0
  = (Raise {| exc_class := "HTTPError"; exc_str := "503 Service Unavailable" |},
     {| site := 1; steps := [Invoked (OpGetPageComments "123456789")] |}).
Proof.
  destruct (pass_through_tools_do_not_catch nat unit
              (with_ops (failing_ops "HTTPError" "503 Service Unavailable")) tt
              "123456789" "DEV" "draft" 25 0
              (failing_ops "HTTPError" "503 Service Unavailable") 0 0 eq_refl)
    as (_ & _ & _ & Hcomments & _).
  exact (Hcomments _ 1 eq_refl).
Defined.

(** [move_page_position] with an unknown position on the healthy site, and
    with a known one on a site that answers 503. *)
Lemma move_page_position_witness :
  fst (start_in (move_page_position (with_ops healthy_ops) flat_hierarchy tt
                   "1" "sideways" "2") 0)
  = Return (json_dumps_ascii
              (JDict [("success", JBool false);
                      ("error", JStr "Invalid position: sideways")]))
  /\ fst (start_in (move_page_position
                      (with_ops (failing_ops "HTTPError" "503 Service Unavailable"))
                      flat_hierarchy tt "1" "append" "2") 0)
     = Return (json_dumps_ascii
                 (JDict [("success", JBool false);
                         ("error", JStr "Failed to move page: 503 Service Unavailable")])).
Proof.
  split.
  - destruct (move_page_position_reports_every_outcome nat unit (with_ops healthy_ops)
                flat_hierarchy tt "1" "sideways" "2" healthy_ops 0 0 eq_refl)
      as (_ & _ & _ & Hvalue & _).
    exact (proj1 (Hvalue _ 1 eq_refl eq_refl)).
  - destruct (move_page_position_reports_every_outcome nat unit
                (with_ops (failing_ops "HTTPError" "503 Service Unavailable"))
                flat_hierarchy tt "1" "append" "2"
                (failing_ops "HTTPError" "503 Service Unavailable") 0 0 eq_refl)
      as (_ & _ & _ & _ & Hother).
    exact (proj1 (Hother _ 1 eq_refl eq_refl)).
Defined.

Lemma move_page_position_ascii_witness :
  exists response,
    fst (start_in (move_page_position (with_ops healthy_ops) flat_hierarchy tt
                     "1" "append" "2") 0) = Return response
    /\ all_plain response = true.
Proof.
  exact (move_page_position_answers_in_ascii nat unit (with_ops healthy_ops) flat_hierarchy
           tt "1" "append" "2" healthy_ops 0 0 eq_refl).
Defined.

(** [add_comment] with an empty comment on the healthy site. *)
Lemma add_comment_witness :
  fst (start_in (add_comment (with_ops healthy_ops) flat_hierarchy tt "1" EmptyString) 0)
  = Return (json_dumps
              (JDict [("success", JBool false);
                      ("message",
                       JStr "Unable to add comment to page 1. API request completed but comment creation unsuccessful.")])).
Proof.
  destruct (add_comment_reports_every_outcome nat unit (with_ops healthy_ops) flat_hierarchy
              tt "1" EmptyString healthy_ops 0 0 eq_refl) as (_ & _ & _ & Hnone & _).
  exact (Hnone 1 eq_refl).
Defined.

(** [search_user("First Last")] with credentials that have expired. *)
Lemma search_user_witness :
  exists passed,
    invoked (steps (snd (start_in
      (search_user (with_ops (failing_ops "MCPAtlassianAuthenticationError" "401 Unauthorized"))
         flat_hierarchy tt "First Last" 10) 0)))
    = [OpSearchUser passed 10]
    /\ passed = "user.fullname ~ " ++ dq ++ "First Last" ++ dq.
Proof.
  destruct (search_user_reports_every_outcome nat unit
              (with_ops (failing_ops "MCPAtlassianAuthenticationError" "401 Unauthorized"))
              flat_hierarchy tt "First Last" 10
              (failing_ops "MCPAtlassianAuthenticationError" "401 Unauthorized") 0 0 eq_refl)
    as (passed & Hops & Hsimple & _).
  exists passed. split; [exact Hops|].
  apply Hsimple; [discriminate | apply no_token_spec; reflexivity].
Defined.

Lemma search_user_simple_term_witness :
  fst (start_in (search_user (with_ops healthy_ops) flat_hierarchy tt "First Last" 10) 0)
  = fst (start_in (search_user (with_ops healthy_ops) flat_hierarchy tt
                     ("user.fullname ~ " ++ dq ++ "First Last" ++ dq) 10) 0).
Proof.
  exact (proj1 (search_user_simple_term_is_fullname_search nat unit (with_ops healthy_ops)
                  flat_hierarchy tt "First Last" 10 healthy_ops 0 0
                  ltac:(discriminate) ltac:(apply no_token_spec; reflexivity) eq_refl)).
Defined.

(** [confluence_get_page_views] with expired credentials, and on a server
    without the analytics API. *)
Lemma page_views_witness :
  fst (start_in (confluence_get_page_views
                   (with_ops (failing_ops "MCPAtlassianAuthenticationError" "401 Unauthorized"))
                   flat_hierarchy tt "123456789" true) 0)
  = Return (json_dumps
              (JDict [("error", JStr "Authentication failed. Please check your credentials.");
                      ("details", JStr "401 Unauthorized")]))
  /\ fst (start_in (confluence_get_page_views
                      (with_ops (failing_ops "ValueError" "Analytics API is Cloud only"))
                      flat_hierarchy tt "123456789" true) 0)
     = Return (json_dumps
                 (JDict [("error", JStr "Analytics API is Cloud only");
                         ("page_id", JStr "123456789")])).
Proof.
  split.
  - destruct (page_views_error_shapes nat unit
                (with_ops (failing_ops "MCPAtlassianAuthenticationError" "401 Unauthorized"))
                flat_hierarchy tt "123456789" true
                (failing_ops "MCPAtlassianAuthenticationError" "401 Unauthorized") 0 0 eq_refl)
      as (_ & _ & _ & Hraise).
    exact (proj1 (Hraise _ 1 eq_refl) eq_refl).
  - destruct (page_views_error_shapes nat unit
                (with_ops (failing_ops "ValueError" "Analytics API is Cloud only"))
                flat_hierarchy tt "123456789" true
                (failing_ops "ValueError" "Analytics API is Cloud only") 0 0 eq_refl)
      as (_ & _ & _ & Hraise).
    exact (proj1 (proj2 (Hraise _ 1 eq_refl)) eq_refl eq_refl).
Defined.

(** [search] without a Confluence client, and a CQL query on the healthy
    site: the world is the one the single search left. *)
Lemma search_call_discipline_witness :
  run (search unconfigured tt "project documentation" 10 None) 0
  = (Raise (ValueError "Confluence client is not configured or available."),
     {| ext := 0; trace := [] |})
  /\ ext (snd (run (search (configured healthy_fetcher) tt "type=page" 10 None) 0))
     = snd (fetcher_search healthy_fetcher "type=page" 10 None 0).
Proof.
  split.
  - exact (proj1 (search_call_discipline nat unit unconfigured tt "project documentation"
                    10 None 0) _ 0 eq_refl).
  - destruct (proj2 (search_call_discipline nat unit (configured healthy_fetcher) tt
                       "type=page" 10 None 0) healthy_fetcher 0 eq_refl)
      as [(_ & Hworld & _) | (_ & Hno & _)].
    + exact Hworld.
    + destruct (Hno "=" (or_introl eq_refl)). now exists "type", "page".
Defined.

(** [get_comments] and [add_comment] on the healthy site. *)
Lemma remaining_tools_call_discipline_witness :
  (invoked (steps (snd (start_in (get_comments (with_ops healthy_ops) tt "1") 0)))
   = [OpGetPageComments "1"]
   /\ site (snd (start_in (get_comments (with_ops healthy_ops) tt "1") 0))
      = snd (fetcher_get_page_comments healthy_ops "1" 0))
  /\ (invoked (steps (snd (start_in (add_comment (with_ops healthy_ops) flat_hierarchy tt
                                       "1" "Looks good") 0)))
      = [OpAddComment "1" "Looks good"]
      /\ site (snd (start_in (add_comment (with_ops healthy_ops) flat_hierarchy tt
                                "1" "Looks good") 0))
         = snd (fetcher_add_comment healthy_ops "1" "Looks good" 0)).
Proof.
  destruct (proj2 (remaining_tools_call_discipline nat unit (with_ops healthy_ops)
                     flat_hierarchy tt "1" "DEV" "append" "2" "draft" "Looks good"
                     "First Last" 10 0 true 0) healthy_ops 0 eq_refl)
    as (_ & _ & _ & Hcomments & _ & _ & _ & _ & _ & Hadd).
  split; [exact Hcomments | exact Hadd].
Defined.
